(** * Anchor relay server: session registry, identity allocation, stats
    snapshot, idle-room sweep, connection loop and operator console.

    A shallow embedding of [server.go] and [main.go].  Go maps are stdpp
    [gmap]s, [uint64] values are [Z] with the wrap-around written out,
    pointers to sessions and rooms are locations into an explicit heap, and
    the effects of a call (log lines, packets written, calls into the
    session's own handler) are collected in an event trace. *)

From Stdlib Require Import Ascii String ZArith Lia.
From stdpp Require Import gmap strings list fin_maps pretty.

Local Open Scope string_scope.
Local Open Scope Z_scope.

(** ** 64-bit unsigned and signed integers *)

Module U64.

Definition modulus : Z := 2 ^ 64.

(** Conversion to [uint64]: the value modulo [2^64]. *)
Definition wrap (z : Z) : Z := z mod modulus.

(** Conversion to [int64]: two's complement. *)
Definition wrap_signed (z : Z) : Z :=
  let r := z mod modulus in
  if r <? 2 ^ 63 then r else r - modulus.

(** [n++] on a [uint64]. *)
Definition incr (n : Z) : Z := wrap (n + 1).

Definition in_range (n : Z) : Prop := 0 <= n < modulus.

End U64.

(** ** JSON documents as the gjson and sjson libraries see them

    The server never parses JSON itself: it reads fields with [gjson.Get] and
    writes them with [sjson.Set].  A document is modelled by the value it
    denotes; number literals are the non-negative integers (what [sjson.Set]
    writes for an unsigned counter and what an identity field holds). *)

Module Gjson.

Local Set Warnings "-register-all".

Inductive json : Type :=
| JNull
| JBool (b : bool)
| JNum (n : N)
| JStr (s : string)
| JArr (items : list json)
| JObj (fields : list (string * json)).

(** The result of [gjson.Get]: [None] when the path matches nothing. *)
Definition Result : Type := option json.

(** First member of an object with the given key. *)
Fixpoint member (key : string) (fields : list (string * json)) : Result :=
  match fields with
  | [] => None
  | (k, v) :: rest => if String.eqb k key then Some v else member key rest
  end.

(** [gjson.Get(doc, "a.b")] for a path of plain keys: a key selects a
    member of an object and matches nothing in any other value. *)
Fixpoint Get (doc : json) (path : list string) : Result :=
  match path with
  | [] => Some doc
  | key :: rest =>
      match doc with
      | JObj fields =>
          match member key fields with
          | Some v => Get v rest
          | None => None
          end
      | _ => None
      end
  end.

(** [Result.Exists]: a literal [null] exists, it has raw text. *)
Definition Exists (r : Result) : bool :=
  match r with Some _ => true | None => false end.

(** Compact text of a value.  For an array or an object [gjson] returns the
    text as it stands in the document; [render] is that text for a document
    written without blanks and escapes, the way [sjson.Set] writes one.
    Whatever the spelling, the text of an array begins with a bracket and
    that of an object with a brace. *)
Definition quote : string := String (Ascii.ascii_of_nat 34) EmptyString.

Fixpoint render (j : json) : string :=
  match j with
  | JNull => "null"
  | JBool true => "true"
  | JBool false => "false"
  | JNum n => pretty n
  | JStr s => quote +:+ s +:+ quote
  | JArr items => "[" +:+ String.concat "," (List.map render items) +:+ "]"
  | JObj fields =>
      "{" +:+
      String.concat ","
        (List.map
           (fun kv =>
              match kv with
              | (k, v) => quote +:+ k +:+ quote +:+ ":" +:+ render v
              end)
           fields) +:+ "}"
  end.

(** The digits-only parsers behind [Result.Uint] and [Result.Int] for a
    string value: they accumulate in a 64-bit word and give up, with 0, on
    an empty text or on any other character. *)
Definition digit (c : Ascii.ascii) : option Z :=
  let n := Z.of_nat (Ascii.nat_of_ascii c) in
  if (48 <=? n) && (n <=? 57) then Some (n - 48) else None.

Fixpoint parseDigits (acc : Z) (s : string) : option Z :=
  match s with
  | EmptyString => Some acc
  | String c rest =>
      match digit c with
      | Some d => parseDigits (U64.wrap (acc * 10 + d)) rest
      | None => None
      end
  end.

Definition parseUint (s : string) : Z :=
  match s with
  | EmptyString => 0
  | _ => default 0 (parseDigits 0 s)
  end.

Definition parseInt (s : string) : Z :=
  match s with
  | EmptyString => 0
  | String "-"%char EmptyString => 0
  | String "-"%char rest =>
      default 0 ((fun n => U64.wrap_signed (- n)) <$> parseDigits 0 rest)
  | _ => default 0 (U64.wrap_signed <$> parseDigits 0 s)
  end.

(** [Result.String]: the text of a string, the raw text of anything else,
    and the empty text for [null] and for a missing field.  (A trailing
    underscore marks a Go name that Rocq reserves.) *)
Definition String_ (r : Result) : string :=
  match r with
  | None => EmptyString
  | Some JNull => EmptyString
  | Some (JStr s) => s
  | Some j => render j
  end.

(** [Result.Uint], a [uint64]. *)
Definition Uint (r : Result) : Z :=
  match r with
  | Some (JBool true) => 1
  | Some (JNum n) => U64.wrap (Z.of_N n)
  | Some (JStr s) => parseUint s
  | _ => 0
  end.

(** [Result.Int], an [int64]. *)
Definition Int (r : Result) : Z :=
  match r with
  | Some (JBool true) => 1
  | Some (JNum n) => U64.wrap_signed (Z.of_N n)
  | Some (JStr s) => parseInt s
  | _ => 0
  end.

End Gjson.

Module Sjson.

Import Gjson.

(** [sjson.Set(doc, key, value)] on an object and a plain top-level key:
    the first member with that key takes the value, and a key the object
    does not have is appended. *)
Fixpoint Set_ (fields : list (string * json)) (key : string) (value : json)
  : list (string * json) :=
  match fields with
  | [] => [(key, value)]
  | (k, v) :: rest =>
      if String.eqb k key then (k, value) :: rest
      else (k, v) :: Set_ rest key value
  end.

(** A [uint64] written as a number literal. *)
Definition number (n : Z) : json := JNum (Z.to_N n).

End Sjson.

(** ** Data model *)

(** Pointers ([*Client], [*Room], [*Team]) are locations in a heap; a
    [net.Conn] is a handle. *)
Definition loc : Type := positive.
Definition connection : Type := nat.

(** Times are nanoseconds on the process clock; a [time.Duration] is a
    saturating [int64]. *)
Definition Time : Type := Z.

Definition maxDuration : Z := 2 ^ 63 - 1.
Definition minDuration : Z := - 2 ^ 63.

Definition time_Sub (t u : Time) : Z :=
  let d := t - u in
  if maxDuration <? d then maxDuration
  else if d <? minDuration then minDuration
  else d.

Definition time_Since (now t : Time) : Z := time_Sub now t.

Definition Second : Z := 1000000000.
Definition Minute : Z := 60 * Second.

Definition INACTIVITY_TIMEOUT : Z := 5 * Minute.
Definition HEARTBEAT : Z := 30 * Second.

(** The period of the idle-room ticker. *)
Definition CLEANUP_INTERVAL : Z := 5 * Second.

(** The opaque state blob of a session: the text [sjson.Set] returns for the
    handshake's [clientState] with the session's identity written into it.
    The server stores and republishes it and never looks inside, so it is
    kept as that uninterpreted term. *)
Inductive blob : Type :=
| SjsonSet (raw : Gjson.Result) (key : string) (value : Z).

Global Instance blob_inhabited : Inhabited blob :=
  populate (SjsonSet None EmptyString 0).

Module Client.
(** The fields [findOrCreateClient] fills in; [server] points at the one
    registry and is left out.  [conn] is [None] for a nil handle. *)
Record t : Type := mk {
  id : Z;
  conn : option connection;
  room : loc;
  team : loc;
  state : blob;
  lastActivity : Time
}.
Global Instance inhabited : Inhabited t := populate (mk 0 None 1%positive 1%positive inhabitant 0).
End Client.

Module Team.
(** Modelled from the spec: the [Team] struct is declared in another file
    of the package; a team has an identifier and the identities of its
    members. *)
Record t : Type := mk {
  id : string;
  members : gset Z
}.
Global Instance inhabited : Inhabited t := populate (mk EmptyString ∅).
End Team.

Module Room.
(** Modelled from the spec: the [Room] struct is declared in another file
    of the package; [id] and [clients] are the fields the registry uses,
    and the spec adds the team mapping and the last-activity timestamp. *)
Record t : Type := mk {
  id : string;
  clients : gmap Z loc;
  teams : gmap string loc;
  lastActivity : Time
}.
Global Instance inhabited : Inhabited t := populate (mk EmptyString ∅ ∅ 0).
End Room.

Module Server.
(** [listener] and [mu] carry no data of their own. *)
Record t : Type := mk {
  quietMode : bool;
  onlineClients : gmap Z loc;
  rooms : gmap string loc;
  gamesCompleted : Z;
  nextClientId : Z
}.
End Server.

(** The registry together with the objects its pointers reach.  Go pointers
    never dangle, so a location in use is read with the total lookup. *)
Record World : Type := mkWorld {
  server : Server.t;
  clientHeap : gmap loc Client.t;
  roomHeap : gmap loc Room.t;
  teamHeap : gmap loc Team.t
}.

Definition set_server (f : Server.t -> Server.t) (w : World) : World :=
  mkWorld (f (server w)) (clientHeap w) (roomHeap w) (teamHeap w).

Definition set_counters (games next : Z) (s : Server.t) : Server.t :=
  Server.mk (Server.quietMode s) (Server.onlineClients s) (Server.rooms s)
    games next.

Definition set_nextClientId (next : Z) (s : Server.t) : Server.t :=
  Server.mk (Server.quietMode s) (Server.onlineClients s) (Server.rooms s)
    (Server.gamesCompleted s) next.

Definition set_rooms (rooms : gmap string loc) (s : Server.t) : Server.t :=
  Server.mk (Server.quietMode s) (Server.onlineClients s) rooms
    (Server.gamesCompleted s) (Server.nextClientId s).

Definition set_onlineClients (online : gmap Z loc) (s : Server.t) : Server.t :=
  Server.mk (Server.quietMode s) online (Server.rooms s)
    (Server.gamesCompleted s) (Server.nextClientId s).

(** What a call does besides changing the registry; the last two are the
    goroutines the operator console starts. *)
Inductive event : Type :=
| Log (msg : string)
| ConnWrite (c : connection) (packet : Gjson.json)
| CallBroadcastAllClientState (room : loc)
| CallSendRoomState (client : loc)
| CallHandlePacket (client : loc) (packet : Gjson.json)
| CallDisconnect (client : loc)
| ConnClose (c : connection)
| GoSendDisable (client : loc) (message : string)
| GoSendServerMessage (client : loc) (message : string).

(** ** Construction and the stats snapshot *)

Definition NewServer : Server.t :=
  Server.mk false ∅ ∅ 0 1.

Definition emptyWorld : World := mkWorld NewServer ∅ ∅ ∅.

Definition JSON_TEMPLATE : list (string * Gjson.json) :=
  [ ("gamesComplete", Gjson.JNum 0);
    ("onlineCount", Gjson.JNum 0);
    ("lastStatsHeartbeat", Gjson.JStr EmptyString);
    ("nextClientId", Gjson.JNum 0) ].

(** The file [stats.json]: [None] when [os.ReadFile] fails, otherwise the
    document it holds. *)
Definition statsFile : Type := option Gjson.json.

(** [gjson.Get(string(value), key)] on what [os.ReadFile] returned: a failed
    read leaves [value] nil, and no path matches in the empty text. *)
Definition statsField (file : statsFile) (key : string) : Gjson.Result :=
  match file with
  | Some doc => Gjson.Get doc [key]
  | None => None
  end.

Definition parseStats (file : statsFile) (s : Server.t) : Server.t * list event :=
  let log :=
    match file with
    | Some _ => []
    | None => [Log "Error reading stats.json file:"]
    end in
  (set_counters
     (U64.wrap (Gjson.Int (statsField file "gamesComplete")))
     (U64.wrap (Gjson.Int (statsField file "nextClientId")))
     s,
   log).

(** The document [saveStats] builds; [stamp] is the text of [time.Now()]. *)
Definition statsDocument (stamp : string) (s : Server.t) : Gjson.json :=
  let value := Sjson.Set_ JSON_TEMPLATE "gamesComplete"
                 (Sjson.number (Server.gamesCompleted s)) in
  let value := Sjson.Set_ value "nextClientId"
                 (Sjson.number (Server.nextClientId s)) in
  let value := Sjson.Set_ value "onlineCount"
                 (Gjson.JNum (N.of_nat (size (Server.onlineClients s)))) in
  let value := Sjson.Set_ value "lastStatsHeartBeat" (Gjson.JStr stamp) in
  Gjson.JObj value.

(** [saveStats]: [written] tells whether [os.WriteFile] succeeded; a failed
    write is logged and the file is taken to keep what it held. *)
Definition saveStats (stamp : string) (written : bool) (s : Server.t)
    (file : statsFile) : statsFile * list event :=
  if written then (Some (statsDocument stamp s), [])
  else (file, [Log "Error writing json to file: "]).

(** ** The idle-room sweep *)

(** Modelled from the spec: [Room.GetLastActivity] is defined in another
    file of the package; it returns the room's last-activity timestamp. *)
Definition GetLastActivity (heap : gmap loc Room.t) (room : loc) : Time :=
  Room.lastActivity (heap !!! room).

Definition inactive (now : Time) (heap : gmap loc Room.t) (room : loc) : bool :=
  INACTIVITY_TIMEOUT <? time_Since now (GetLastActivity heap room).

(** The body of the [range s.rooms] loop for one entry: the map shrinks
    while it is being walked. *)
Definition sweepRoom (now : Time) (heap : gmap loc Room.t)
    (id : string) (room : loc) (acc : gmap string loc * list event)
    : gmap string loc * list event :=
  if inactive now heap room then
    (delete id acc.1,
     (acc.2 ++
      [Log ("Room " +:+ id +:+ " has been inactive for too long, deleting it")])%list)
  else acc.

(** One tick of [cleanupInactiveRooms]. *)
Definition cleanupInactiveRooms (now : Time) (w : World) : World * list event :=
  let swept :=
    map_fold (sweepRoom now (roomHeap w))
      (Server.rooms (server w), []) (Server.rooms (server w)) in
  (set_server (set_rooms swept.1) w, swept.2).


(** ** Identity allocation *)

(** [s.nextClientId++] followed by the guard that steps over zero. *)
Definition advance (next : Z) : Z :=
  let next := U64.incr next in
  if next =? 0 then U64.incr next else next.

(** The [for] loop of [findOrCreateClient]: as long as the candidate is
    online, take the counter instead and advance it.  The loop has no bound
    in the source; [fuel] counts its iterations and [None] stands for a loop
    that is still running when the fuel is spent. *)
Fixpoint avoidCollision (fuel : nat) (online : gmap Z loc)
    (clientId next : Z) : option (Z * Z) :=
  match fuel with
  | O => None
  | S fuel =>
      match online !! clientId with
      | None => Some (clientId, next)
      | Some _ => avoidCollision fuel online next (advance next)
      end
  end.

(** The values the counter takes on [k] successive allocations. *)
Fixpoint ticks (next : Z) (k : nat) : list Z :=
  match k with
  | O => []
  | S k => next :: ticks (advance next) k
  end.

(** The first half of [findOrCreateClient], under the registry lock: the
    identity the session gets and the counter afterwards.  Two iterations
    more than there are online clients are enough for the loop to end (see
    [resolveIdentity_returns]). *)
Definition resolveIdentity (claimed : Z) (s : Server.t) : option (Z * Z) :=
  let next := Server.nextClientId s in
  let '(clientId, next) :=
    if claimed =? 0 then (next, advance next) else (claimed, next) in
  avoidCollision (S (S (size (Server.onlineClients s))))
    (Server.onlineClients s) clientId next.

(** ** Rooms, teams and sessions *)

(** Modelled from the spec: [NewRoom] is defined in another file of the
    package; a room starts with no clients and no teams, and its
    last-activity timestamp is seeded at creation. *)
Definition NewRoom (now : Time) (roomId : string) (clientId : Z)
    (packet : Gjson.json) : Room.t :=
  Room.mk roomId ∅ ∅ now.

Definition findOrCreateRoom (now : Time) (packet : Gjson.json) (clientId : Z)
    (w : World) : World * loc :=
  let roomId := Gjson.String_ (Gjson.Get packet ["roomId"]) in
  match Server.rooms (server w) !! roomId with
  | Some room => (w, room)
  | None =>
      let room := fresh (dom (roomHeap w)) in
      (mkWorld
         (set_rooms (<[roomId := room]> (Server.rooms (server w))) (server w))
         (clientHeap w)
         (<[room := NewRoom now roomId clientId packet]> (roomHeap w))
         (teamHeap w),
       room)
  end.

(** Modelled from the spec: [Room.findOrCreateTeam] is defined in another
    file of the package; the team is looked up by its identifier in the
    room's team mapping and created there on first use, and every text, the
    empty one too, is a team key. *)
Definition findOrCreateTeam (room : loc) (teamId : string) (w : World)
    : World * loc :=
  let r := roomHeap w !!! room in
  match Room.teams r !! teamId with
  | Some team => (w, team)
  | None =>
      let team := fresh (dom (teamHeap w)) in
      (mkWorld (server w) (clientHeap w)
         (<[room := Room.mk (Room.id r) (Room.clients r)
                      (<[teamId := team]> (Room.teams r))
                      (Room.lastActivity r)]> (roomHeap w))
         (<[team := Team.mk teamId ∅]> (teamHeap w)),
       team)
  end.

(** The second half of [findOrCreateClient], once the identity is settled:
    resolve room and team, update the session the room already has for this
    identity or build a new one, and register it. *)
Definition attachClient (now : Time) (packet : Gjson.json) (conn : connection)
    (clientId : Z) (w : World) : World * loc :=
  let '(w, room) := findOrCreateRoom now packet clientId w in
  let '(w, team) :=
    findOrCreateTeam room
      (Gjson.String_ (Gjson.Get packet ["clientState"; "teamId"])) w in
  let r := roomHeap w !!! room in
  let clientState := SjsonSet (Gjson.Get packet ["clientState"]) "clientId" clientId in
  let '(w, client) :=
    match Room.clients r !! clientId with
    | Some client =>
        let c := clientHeap w !!! client in
        (mkWorld (server w)
           (<[client := Client.mk (Client.id c) (Some conn) (Client.room c)
                          team clientState now]> (clientHeap w))
           (roomHeap w) (teamHeap w),
         client)
    | None =>
        let client := fresh (dom (clientHeap w)) in
        (mkWorld (server w)
           (<[client := Client.mk clientId (Some conn) room team clientState now]>
              (clientHeap w))
           (<[room := Room.mk (Room.id r) (<[clientId := client]> (Room.clients r))
                        (Room.teams r) (Room.lastActivity r)]> (roomHeap w))
           (teamHeap w),
         client)
    end in
  (set_server
     (fun s => set_onlineClients (<[clientId := client]> (Server.onlineClients s)) s)
     w,
   client).

Definition findOrCreateClient (now : Time) (packet : Gjson.json)
    (conn : connection) (w : World) : option (World * loc) :=
  match resolveIdentity (Gjson.Uint (Gjson.Get packet ["clientId"])) (server w) with
  | None => None
  | Some (clientId, next) =>
      Some (attachClient now packet conn clientId
              (set_server (set_nextClientId next) w))
  end.

(** The identity [findOrCreateClient] settles on. *)
Definition assignedId (packet : Gjson.json) (w : World) : option Z :=
  fst <$> resolveIdentity (Gjson.Uint (Gjson.Get packet ["clientId"])) (server w).

(** What a handshake asks for, and the session its room already holds for
    an identity. *)
Definition handshakeRoomId (packet : Gjson.json) : string :=
  Gjson.String_ (Gjson.Get packet ["roomId"]).

Definition handshakeTeamId (packet : Gjson.json) : string :=
  Gjson.String_ (Gjson.Get packet ["clientState"; "teamId"]).

Definition handshakeState (packet : Gjson.json) (clientId : Z) : blob :=
  SjsonSet (Gjson.Get packet ["clientState"]) "clientId" clientId.

Definition roomClients (roomId : string) (w : World) : gmap Z loc :=
  match Server.rooms (server w) !! roomId with
  | Some room => Room.clients (roomHeap w !!! room)
  | None => ∅
  end.

Definition existingSession (packet : Gjson.json) (clientId : Z) (w : World)
    : option loc :=
  roomClients (handshakeRoomId packet) w !! clientId.

(** ** The connection loop *)

(** What the scanner hands over for one frame: [None] is a text that
    [gjson.Valid] rejects, otherwise the document it holds. *)
Definition payload : Type := option Gjson.json.

(** The reply to a [STATS] packet. *)
Definition statsReply (s : Server.t) : Gjson.json :=
  let outgoingPacket :=
    Sjson.Set_ [("type", Gjson.JStr "STATS")] "uniquePlayers"
      (Sjson.number (Server.nextClientId s)) in
  let outgoingPacket :=
    Sjson.Set_ outgoingPacket "gamesCompleted"
      (Sjson.number (Server.gamesCompleted s)) in
  let outgoingPacket :=
    Sjson.Set_ outgoingPacket "online"
      (Gjson.JNum (N.of_nat (size (Server.onlineClients s)))) in
  Gjson.JObj outgoingPacket.

Section Connection.

(** The methods of [Client] and [Room] that [handleConnection] calls are
    defined in other files of the package.  They are taken as they come:
    each one is some change of the world, and the call itself is recorded in
    the trace.  The loop is followed for one connection; what other
    connections do to the registry meanwhile is not interleaved. *)
Variable broadcastAllClientState : Time -> loc -> World -> World.
Variable sendRoomState : Time -> loc -> World -> World.
Variable handlePacket : Time -> loc -> Gjson.json -> World -> World.
Variable disconnect : Time -> loc -> World -> World.

(** The local variables of the loop that outlive one iteration: the world
    and [client], nil until the handshake. *)
Definition loopState : Type := World * option loc.

(** One iteration of [for scanner.Scan()], for the frame [p] read at [now].
    [None] only when the identity search of a handshake does not end. *)
Definition handlePayload (conn : connection) (now : Time) (p : payload)
    (st : loopState) : option (loopState * list event) :=
  let '(w, client) := st in
  match p with
  | None => Some (st, [Log "Invalid JSON packet"])
  | Some packet =>
      let packetTypeWrapped := Gjson.Get packet ["type"] in
      if negb (Gjson.Exists packetTypeWrapped) then
        Some (st, [Log "Packet missing type"])
      else
        let packetType := Gjson.String_ packetTypeWrapped in
        if String.eqb packetType "STATS" then
          Some (st, [ConnWrite conn (statsReply (server w))])
        else
          match client with
          | None =>
              if negb (String.eqb packetType "HANDSHAKE") then
                Some (st, [Log "Client must handshake first"])
              else
                match findOrCreateClient now packet conn w with
                | None => None
                | Some (w, c) =>
                    let cl := clientHeap w !!! c in
                    let w := broadcastAllClientState now (Client.room cl) w in
                    let w := sendRoomState now c w in
                    Some ((w, Some c),
                          [Log ("Client " +:+ pretty (Client.id cl) +:+ " Connected");
                           CallBroadcastAllClientState (Client.room cl);
                           CallSendRoomState c])
                end
          | Some c =>
              Some ((handlePacket now c packet w, Some c),
                    [CallHandlePacket c packet])
          end
  end.

(** The whole [for scanner.Scan()] loop over the frames of a stream. *)
Fixpoint readLoop (conn : connection) (frames : list (Time * payload))
    (st : loopState) : option (loopState * list event) :=
  match frames with
  | [] => Some (st, [])
  | (now, p) :: rest =>
      match handlePayload conn now p st with
      | None => None
      | Some (st, evs) =>
          match readLoop conn rest st with
          | None => None
          | Some (st, evs') => Some (st, (evs ++ evs')%list)
          end
      end
  end.

(** [handleConnection]: the loop, then the disconnect of an authenticated
    session, then the deferred [conn.Close()].  [scanErr] is what
    [scanner.Err()] reports when the stream has ended at [now]. *)
Definition handleConnection (conn : connection) (frames : list (Time * payload))
    (now : Time) (scanErr : option string) (w : World)
    : option (World * list event) :=
  match readLoop conn frames (w, None) with
  | None => None
  | Some ((w, client), evs) =>
      match client with
      | Some c =>
          let w := disconnect now c w in
          let room := Client.room (clientHeap w !!! c) in
          let w := broadcastAllClientState now room w in
          let id := pretty (Client.id (clientHeap w !!! c)) in
          let line :=
            match scanErr with
            | Some err => "Client " +:+ id +:+ " disconnected with error: " +:+ err
            | None => "Client " +:+ id +:+ " disconnected"
            end in
          Some (w,
                (evs ++ [CallDisconnect c; CallBroadcastAllClientState room;
                         Log line; ConnClose conn])%list)
      | None =>
          Some (w, (evs ++ [Log "Unknown client disconnected."; ConnClose conn])%list)
      end
  end.

End Connection.

(** ** The operator console and the mutexes it takes *)

Module Mutex.

(** A [sync.Mutex]; its zero value is unlocked. *)
Inductive t : Type := Unlocked | Locked.

(** The mutexes of the registry and of the sessions: whether [s.mu] is held
    and the sessions whose [mu] is held. *)
Record table : Type := mkTable {
  serverMu : t;
  clientMu : gset loc
}.

Definition free : table := mkTable Unlocked ∅.

Inductive name : Type := OfServer | OfClient (c : loc).

Definition get (m : name) (tb : table) : t :=
  match m with
  | OfServer => serverMu tb
  | OfClient c => if decide (c ∈ clientMu tb) then Locked else Unlocked
  end.

Definition put (m : name) (v : t) (tb : table) : table :=
  match m with
  | OfServer => mkTable v (clientMu tb)
  | OfClient c =>
      mkTable (serverMu tb)
        (match v with
         | Locked => {[c]} ∪ clientMu tb
         | Unlocked => clientMu tb ∖ {[c]}
         end)
  end.

End Mutex.

(** How a console command can end badly: [Unlock] of a mutex that is not
    locked is a fatal error of the Go runtime; [Lock] of a held mutex waits
    for another goroutine; an index past the end of a slice panics. *)
Inductive fault : Type :=
| UnlockOfUnlockedMutex (m : Mutex.name)
| WaitsFor (m : Mutex.name)
| IndexOutOfRange.

Inductive result (A : Type) : Type :=
| Ret (a : A) (tb : Mutex.table) (trace : list event)
| Crash (f : fault) (trace : list event).

Arguments Ret {A} a tb trace.
Arguments Crash {A} f trace.

(** Commands thread the mutex table and the trace and stop at a fault. *)
Definition Cmd (A : Type) : Type := Mutex.table -> result A.

Definition ret {A : Type} (a : A) : Cmd A := fun tb => Ret a tb [].

Definition bind {A B : Type} (c : Cmd A) (k : A -> Cmd B) : Cmd B :=
  fun tb =>
    match c tb with
    | Ret a tb evs =>
        match k a tb with
        | Ret b tb evs' => Ret b tb (evs ++ evs')%list
        | Crash f evs' => Crash f (evs ++ evs')%list
        end
    | Crash f evs => Crash f evs
    end.

Global Instance cmd_ret : MRet Cmd := @ret.
Global Instance cmd_bind : MBind Cmd := fun A B k c => bind c k.

Definition Lock (m : Mutex.name) : Cmd unit :=
  fun tb =>
    match Mutex.get m tb with
    | Mutex.Unlocked => Ret tt (Mutex.put m Mutex.Locked tb) []
    | Mutex.Locked => Crash (WaitsFor m) []
    end.

Definition Unlock (m : Mutex.name) : Cmd unit :=
  fun tb =>
    match Mutex.get m tb with
    | Mutex.Locked => Ret tt (Mutex.put m Mutex.Unlocked tb) []
    | Mutex.Unlocked => Crash (UnlockOfUnlockedMutex m) []
    end.

Definition emit (e : event) : Cmd unit := fun tb => Ret tt tb [e].

Definition index (input : list string) (i : nat) : Cmd string :=
  fun tb =>
    match input !! i with
    | Some x => Ret x tb []
    | None => Crash IndexOutOfRange []
    end.

(** [strconv.ParseUint(text, 10, 64)]: decimal digits only, at least one,
    and a value that fits 64 bits; [None] for the error. *)
Fixpoint parseDecimal (acc : Z) (s : string) : option Z :=
  match s with
  | EmptyString => Some acc
  | String c rest =>
      match Gjson.digit c with
      | Some d =>
          let acc := acc * 10 + d in
          if acc <? U64.modulus then parseDecimal acc rest else None
      | None => None
      end
  end.

Definition ParseUint (s : string) : option Z :=
  match s with
  | EmptyString => None
  | _ => parseDecimal 0 s
  end.

Definition getClientID (clientID : string) : Cmd Z :=
  match ParseUint clientID with
  | None => emit (Log "Given text was not a valid clientID.");; mret 0
  | Some converted => mret converted
  end.

(** [getMessage]: the loop condition [i <= len(input)-1] makes [i < len(input)]
    true on every round, so every word is followed by a blank. *)
Definition getMessage (input : list string) : string :=
  String.concat EmptyString (List.map (fun word => word +:+ " ") input).

(** The [disable] case of [processStdin]. *)
Definition cmdDisable (w : World) (splitInput : list string) : Cmd unit :=
  arg ← index splitInput 1;
  targetClientId ← getClientID arg;
  if targetClientId =? 0 then mret tt
  else
    Lock Mutex.OfServer;;
    let client := Server.onlineClients (server w) !! targetClientId in
    Unlock Mutex.OfServer;;
    match client with
    | Some c =>
        Unlock (Mutex.OfClient c);;
        emit (Log ("[Server] DISABLE_ANCHOR packet -> " +:+
                   pretty (Client.id (clientHeap w !!! c))));;
        Unlock (Mutex.OfClient c);;
        emit (GoSendDisable c (getMessage (drop 2 splitInput)))
    | None =>
        emit (Log ("Client " +:+ pretty targetClientId +:+ " not found"))
    end.

(** The [message] case of [processStdin]. *)
Definition cmdMessage (w : World) (splitInput : list string) : Cmd unit :=
  arg ← index splitInput 1;
  targetClientId ← getClientID arg;
  if targetClientId =? 0 then mret tt
  else
    Lock Mutex.OfServer;;
    let client := Server.onlineClients (server w) !! targetClientId in
    Unlock Mutex.OfServer;;
    match client with
    | Some c =>
        Lock (Mutex.OfClient c);;
        emit (Log ("[Server] SERVER_MESSAGE packet -> " +:+
                   pretty (Client.id (clientHeap w !!! c))));;
        Unlock (Mutex.OfClient c);;
        emit (GoSendServerMessage c (getMessage (drop 2 splitInput)))
    | None =>
        emit (Log ("Client " +:+ pretty targetClientId +:+ " not found"))
    end.

(** [strings.Split(input, " ")] after the newline is removed. *)
Fixpoint splitOnSpace (word : string) (s : string) : list string :=
  match s with
  | EmptyString => [String.rev word]
  | String c rest =>
      if Ascii.eqb c " "%char then String.rev word :: splitOnSpace EmptyString rest
      else splitOnSpace (String c word) rest
  end.

Definition Split (input : string) : list string := splitOnSpace EmptyString input.

(** ** A worked run

    A first client joins room [r1] on connection 7 and stays online; a
    second handshake then arrives on connection 8 carrying the identity the
    first one was given. *)

Definition handshakePacket (clientId : N) (roomId teamId : string) : Gjson.json :=
  Gjson.JObj
    [ ("type", Gjson.JStr "HANDSHAKE");
      ("clientId", Gjson.JNum clientId);
      ("roomId", Gjson.JStr roomId);
      ("clientState", Gjson.JObj [("teamId", Gjson.JStr teamId)]) ].

Definition orElse (w : World) (r : option (World * loc)) : World * loc :=
  default (w, 1%positive) r.

Definition firstJoin : World * loc :=
  orElse emptyWorld
    (findOrCreateClient 100 (handshakePacket 0 "r1" "red") 7%nat emptyWorld).

Definition secondJoin : World * loc :=
  orElse firstJoin.1
    (findOrCreateClient 200 (handshakePacket 1 "r1" "red") 8%nat firstJoin.1).

(** A run of handshakes, every session staying online, and the identities
    they are given. *)
Fixpoint handshakes (joins : list (Time * Gjson.json * connection)) (w : World)
    : option (World * list Z) :=
  match joins with
  | [] => Some (w, [])
  | (now, packet, conn) :: rest =>
      match assignedId packet w, findOrCreateClient now packet conn w with
      | Some clientId, Some (w, _) =>
          match handshakes rest w with
          | Some (w, ids) => Some (w, clientId :: ids)
          | None => None
          end
      | _, _ => None
      end
  end.

(** Identity resolution for handshakes that run side by side and all ask for
    a fresh identity.  Each one holds the registry lock while it reads and
    advances the counter, and sees the online mapping as it is at that
    moment: [views] lists those mappings in the order the lock was taken.
    Other connections register and leave in between, so the mappings are
    unrelated. *)
Fixpoint freshIdentities (views : list (gmap Z loc)) (next : Z)
    : option (list Z * Z) :=
  match views with
  | [] => Some ([], next)
  | online :: rest =>
      match resolveIdentity 0 (Server.mk false online ∅ 0 next) with
      | Some (clientId, next) =>
          match freshIdentities rest next with
          | Some (ids, next) => Some (clientId :: ids, next)
          | None => None
          end
      | None => None
      end
  end.

(** An upper bound on the counter values such a run can use up. *)
Definition ticksBudget (views : list (gmap Z loc)) : nat :=
  sum_list ((fun online : gmap Z loc => S (S (size online))) <$> views).

Definition isLog (e : event) : Prop := exists msg, e = Log msg.

(** The registry once [parseStats] has run at startup without a stats file. *)
Definition startedWithoutStats : World :=
  mkWorld (parseStats None NewServer).1 ∅ ∅ ∅.

Definition zeroJoin : World * loc :=
  orElse startedWithoutStats
    (findOrCreateClient 100 (handshakePacket 0 "r1" "red") 7%nat startedWithoutStats).

(** One save followed by the load of a fresh process, and a series of such
    cycles with nothing happening in between. *)
Definition saveThenLoad (stamp : string) (s : Server.t) : Server.t :=
  (parseStats (saveStats stamp true s None).1 NewServer).1.

Definition saveLoadCycles (stamps : list string) (s : Server.t) : Server.t :=
  fold_left (fun s stamp => saveThenLoad stamp s) stamps s.

(** A handshake that names no room. *)
Definition roomlessHandshake : Gjson.json :=
  Gjson.JObj
    [ ("type", Gjson.JStr "HANDSHAKE");
      ("clientState", Gjson.JObj [("teamId", Gjson.JStr "red")]) ].

(** Frames used below: a stats request, and a frame whose [type] is the
    number 5. *)
Definition statsRequest : Gjson.json :=
  Gjson.JObj [("type", Gjson.JStr "STATS")].

Definition numberTyped : Gjson.json :=
  Gjson.JObj [("type", Gjson.JNum 5)].

(** Handlers that leave the world alone. *)
Definition idle2 : Time -> loc -> World -> World := fun _ _ w => w.
Definition idle3 : Time -> loc -> Gjson.json -> World -> World := fun _ _ _ w => w.

(** A frame the loop rejects: not valid JSON, or without a [type] field. *)
Definition malformed (p : payload) : Prop :=
  match p with
  | None => True
  | Some doc => Gjson.Get doc ["type"] = None
  end.

(** A frame without a string-valued [type] field. *)
Definition lacksStringType (p : payload) : Prop :=
  match p with
  | None => True
  | Some doc => forall s, Gjson.Get doc ["type"] <> Some (Gjson.JStr s)
  end.

(** An iteration that only logs and leaves the loop state as it was. *)
Definition droppedWithLog (r : option (loopState * list event))
    (st : loopState) : Prop :=
  exists msg, r = Some (st, [Log msg]).

(** The drop rule read on string-valued types: every frame without a
    string-valued [type] is logged and dropped. *)
Definition frames_without_string_type_dropped : Prop :=
  forall (broadcastAllClientState sendRoomState : Time -> loc -> World -> World)
         (handlePacket : Time -> loc -> Gjson.json -> World -> World)
         (conn : connection) (now : Time) (p : payload) (st : loopState),
    lacksStringType p ->
    droppedWithLog
      (handlePayload broadcastAllClientState sendRoomState handlePacket
         conn now p st) st.

(** A field whose text the model gives exactly: an absent field, or any
    value but an array or an object, for which [Result.String] is the text
    as it stands in the received document, blanks and escapes included. *)
Definition exactText (r : Gjson.Result) : Prop :=
  match r with
  | Some (Gjson.JArr _) | Some (Gjson.JObj _) => False
  | _ => True
  end.

(** The first client has gone offline: the registry no longer lists it as
    online, and its room still holds its session. *)
Definition firstOffline : World :=
  set_server (set_onlineClients ∅) firstJoin.1.

(** A text of decimal digits. *)
Fixpoint digitsOnly (s : string) : bool :=
  match s with
  | EmptyString => true
  | String c rest =>
      match Gjson.digit c with
      | Some _ => digitsOnly rest
      | None => false
      end
  end.

(** The [uniquePlayers] field of a [STATS] reply read as a count: after any
    run of handshakes on a fresh server it is the number of distinct
    identities the run was given. *)
Definition uniquePlayers_counts_assigned : Prop :=
  forall (joins : list (Time * Gjson.json * connection)) (w : World) (ids : list Z),
    handshakes joins emptyWorld = Some (w, ids) ->
    Gjson.Uint (Gjson.Get (statsReply (server w)) ["uniquePlayers"])
    = Z.of_nat (size (list_to_set ids : gset Z)).

(** Two handshakes that carry the identities 5 and 6. *)
Definition carriedJoins : list (Time * Gjson.json * connection) :=
  [ (100, handshakePacket 5 "r1" "red", 7%nat);
    (200, handshakePacket 6 "r1" "red", 8%nat) ].

Definition carriedRun : World * list Z :=
  default (emptyWorld, []) (handshakes carriedJoins emptyWorld).

(** * Properties *)

(** ** Arithmetic of the identity counter *)

Lemma modulus_eq : U64.modulus = 18446744073709551616.
Proof. reflexivity. Qed.

Lemma wrap_in_range (z : Z) : U64.in_range (U64.wrap z).
Proof.
  unfold U64.in_range, U64.wrap. rewrite modulus_eq.
  apply Z.mod_pos_bound. lia.
Qed.

Lemma wrap_small (z : Z) : U64.in_range z -> U64.wrap z = z.
Proof.
  unfold U64.in_range, U64.wrap. rewrite modulus_eq. intros H.
  apply Z.mod_small. lia.
Qed.

(** Reading a counter back through [int64] and [uint64] loses nothing. *)
Lemma wrap_wrap_signed (z : Z) : U64.wrap (U64.wrap_signed z) = U64.wrap z.
Proof.
  unfold U64.wrap, U64.wrap_signed. rewrite modulus_eq.
  set (m := 18446744073709551616).
  destruct (z mod m <? 2 ^ 63).
  - apply Z.mod_mod. unfold m. lia.
  - replace (z mod m - m) with (z mod m + (-1) * m) by lia.
    rewrite Z.mod_add by (unfold m; lia).
    apply Z.mod_mod. unfold m. lia.
Qed.

Lemma incr_spec (n : Z) :
  U64.in_range n ->
  U64.incr n = if n =? U64.modulus - 1 then 0 else n + 1.
Proof.
  unfold U64.in_range, U64.incr, U64.wrap. rewrite modulus_eq. intros H.
  destruct (Z.eqb_spec n (18446744073709551616 - 1)) as [->|Hne].
  - reflexivity.
  - apply Z.mod_small. lia.
Qed.

(** The counter after one allocation: it steps over zero at the wrap. *)
Lemma advance_spec (n : Z) :
  U64.in_range n ->
  advance n = if n =? U64.modulus - 1 then 1 else n + 1.
Proof.
  intros H. unfold advance. rewrite incr_spec by assumption.
  destruct (Z.eqb_spec n (U64.modulus - 1)) as [->|Hne].
  - reflexivity.
  - destruct (Z.eqb_spec (n + 1) 0) as [H0|_]; [|reflexivity].
    unfold U64.in_range in H. lia.
Qed.

Lemma advance_in_range (n : Z) : U64.in_range (advance n).
Proof.
  unfold advance. destruct (U64.incr n =? 0); apply wrap_in_range.
Qed.

Lemma advance_nonzero (n : Z) : advance n <> 0.
Proof.
  unfold advance. destruct (Z.eqb_spec (U64.incr n) 0) as [H0|Hne].
  - rewrite H0. discriminate.
  - exact Hne.
Qed.

Lemma ticks_length (next : Z) (k : nat) : length (ticks next k) = k.
Proof. revert next. induction k as [|k IH]; intros next; simpl; [|rewrite IH]; reflexivity. Qed.

(** From a non-zero counter, the [i]-th value is [i] places further round
    the cycle of the [2^64 - 1] non-zero identities. *)
Lemma mod_eq_intro (a b k M : Z) :
  0 < M -> a = b + k * M -> a mod M = b mod M.
Proof. intros HM ->. apply Z.mod_add. lia. Qed.

Lemma ticks_lookup (next : Z) (k i : nat) :
  1 <= next < U64.modulus -> (i < k)%nat ->
  ticks next k !! i = Some ((next - 1 + Z.of_nat i) mod (U64.modulus - 1) + 1).
Proof.
  revert next i.
  induction k as [|k IH]; intros next i Hn Hi; [lia|].
  destruct i as [|i].
  - change (ticks next (S k) !! 0%nat) with (Some next). f_equal.
    rewrite Z.add_0_r, Z.mod_small; lia.
  - change (ticks next (S k) !! S i) with (ticks (advance next) k !! i).
    pose proof (advance_nonzero next) as Hnz.
    pose proof (advance_in_range next) as Hr. unfold U64.in_range in Hr.
    rewrite IH by lia. f_equal. f_equal.
    rewrite advance_spec by (unfold U64.in_range; lia).
    rewrite modulus_eq in *.
    destruct (Z.eqb_spec next (18446744073709551616 - 1)) as [->|Hne].
    + apply (mod_eq_intro _ _ (-1)); lia.
    + apply (mod_eq_intro _ _ 0); lia.
Qed.

Lemma ticks_NoDup_pos (next : Z) (k : nat) :
  1 <= next < U64.modulus -> Z.of_nat k <= U64.modulus - 1 ->
  NoDup (ticks next k).
Proof.
  intros Hn Hk. apply NoDup_alt. intros i j x Hi Hj.
  assert (i < k)%nat as Hik
    by (rewrite <- (ticks_length next k); eapply lookup_lt_Some; eassumption).
  assert (j < k)%nat as Hjk
    by (rewrite <- (ticks_length next k); eapply lookup_lt_Some; eassumption).
  rewrite ticks_lookup in Hi, Hj by assumption.
  injection Hi as Hi. injection Hj as Hj. rewrite <- Hj in Hi. clear Hj x.
  rewrite modulus_eq in *.
  set (M := 18446744073709551616 - 1) in *.
  assert (0 < M) as HM by (unfold M; lia).
  pose proof (Z.div_mod (next - 1 + Z.of_nat i) M ltac:(lia)) as Di.
  pose proof (Z.div_mod (next - 1 + Z.of_nat j) M ltac:(lia)) as Dj.
  assert (Z.of_nat i - Z.of_nat j
          = M * ((next - 1 + Z.of_nat i) / M - (next - 1 + Z.of_nat j) / M))
    as Hd by lia.
  assert ((next - 1 + Z.of_nat i) / M - (next - 1 + Z.of_nat j) / M = 0)
    as Hq by nia.
  rewrite Hq in Hd. lia.
Qed.

(** Counter values do not repeat within one turn of the cycle, also from the
    zero counter a failed stats load leaves behind. *)
Lemma ticks_NoDup (next : Z) (k : nat) :
  U64.in_range next -> Z.of_nat k <= U64.modulus - 1 ->
  NoDup (ticks next k).
Proof.
  intros Hn Hk. destruct (Z.eq_dec next 0) as [->|Hne].
  - destruct k as [|k]; simpl; [constructor|].
    assert (1 <= advance 0 < U64.modulus) as H1 by (vm_compute; split; congruence).
    constructor.
    + intros Hin. apply list_elem_of_lookup in Hin as [i Hi].
      assert (i < k)%nat as Hik
        by (rewrite <- (ticks_length (advance 0) k); eapply lookup_lt_Some; eassumption).
      rewrite ticks_lookup in Hi by assumption.
      injection Hi as Hi. rewrite modulus_eq in Hi.
      pose proof (Z.mod_pos_bound (advance 0 - 1 + Z.of_nat i)
                    (18446744073709551616 - 1) ltac:(lia)).
      lia.
    + apply ticks_NoDup_pos; [assumption|lia].
  - apply ticks_NoDup_pos; [unfold U64.in_range in Hn; lia|assumption].
Qed.

(** ** The collision-avoidance loop *)

(** A loop still running after [S fuel] rounds has found its first candidate
    and the next [fuel] counter values all online. *)
Lemma avoidCollision_None (fuel : nat) (online : gmap Z loc) (clientId next : Z) :
  avoidCollision (S fuel) online clientId next = None ->
  is_Some (online !! clientId) /\
  forall x, x ∈ ticks next fuel -> is_Some (online !! x).
Proof.
  revert clientId next.
  induction fuel as [|fuel IH]; intros clientId next; simpl.
  - destruct (online !! clientId) eqn:E; [|discriminate].
    intros _. split; [eauto|]. intros x Hx. inversion Hx.
  - destruct (online !! clientId) eqn:E; [|discriminate].
    intros H. split; [eauto|].
    apply (IH next (advance next)) in H as [Hn Hrest].
    intros x Hx. apply elem_of_cons in Hx as [->|Hx]; auto.
Qed.

(** The loop ends: there are fewer online clients than identities in the
    cycle, so one of the counter values tried is free. *)
Lemma avoidCollision_returns (online : gmap Z loc) (clientId next : Z) :
  U64.in_range next ->
  Z.of_nat (size online) < U64.modulus - 1 ->
  is_Some (avoidCollision (S (S (size online))) online clientId next).
Proof.
  intros Hn Hsize.
  destruct (avoidCollision (S (S (size online))) online clientId next) eqn:E;
    [eauto|exfalso].
  apply avoidCollision_None in E as [_ Hall].
  assert (NoDup (ticks next (S (size online)))) as Hnd
    by (apply ticks_NoDup; [assumption|lia]).
  assert (list_to_set (ticks next (S (size online))) ⊆ dom online) as Hsub.
  { intros x Hx. apply elem_of_list_to_set in Hx. apply elem_of_dom. auto. }
  apply subseteq_size in Hsub.
  rewrite size_list_to_set, ticks_length, size_dom in Hsub by assumption.
  lia.
Qed.

(** What the loop returns: an identity that is not online; it is the first
    candidate, with the counter untouched, or it was read off the counter,
    which then stands one step past it. *)
Lemma avoidCollision_Some (fuel : nat) (online : gmap Z loc)
    (clientId next c n : Z) :
  avoidCollision fuel online clientId next = Some (c, n) ->
  online !! c = None /\
  ((c = clientId /\ n = next) \/
   (is_Some (online !! clientId) /\ n = advance c /\ (next <> 0 -> c <> 0))).
Proof.
  revert clientId next.
  induction fuel as [|fuel IH]; intros clientId next; simpl; [discriminate|].
  destruct (online !! clientId) eqn:E.
  - intros H. apply IH in H as [Hfree [[-> ->]|(_ & -> & Hnz)]].
    + split; [assumption|]. right. eauto.
    + split; [assumption|]. right. split; [eauto|]. split; [reflexivity|].
      intros _. apply Hnz, advance_nonzero.
  - intros [= <- <-]. split; [assumption|]. left. split; reflexivity.
Qed.

(** ** Identity resolution *)

Lemma resolveIdentity_returns (claimed : Z) (s : Server.t) :
  U64.in_range (Server.nextClientId s) ->
  Z.of_nat (size (Server.onlineClients s)) < U64.modulus - 1 ->
  is_Some (resolveIdentity claimed s).
Proof.
  intros Hn Hsize. unfold resolveIdentity.
  destruct (claimed =? 0); apply avoidCollision_returns;
    auto using advance_in_range.
Qed.

(** The identity settled on is never one of an online client. *)
Lemma resolveIdentity_fresh (claimed : Z) (s : Server.t) (c n : Z) :
  resolveIdentity claimed s = Some (c, n) ->
  Server.onlineClients s !! c = None.
Proof.
  unfold resolveIdentity. destruct (claimed =? 0); intros H;
    apply avoidCollision_Some in H as [H _]; exact H.
Qed.

(** As long as the counter is not zero, neither the identity handed out nor
    the counter left behind is zero. *)
Lemma resolveIdentity_nonzero (claimed : Z) (s : Server.t) (c n : Z) :
  Server.nextClientId s <> 0 ->
  resolveIdentity claimed s = Some (c, n) ->
  c <> 0 /\ n <> 0.
Proof.
  intros Hnz. unfold resolveIdentity.
  destruct (Z.eqb_spec claimed 0) as [->|Hc]; intros H;
    apply avoidCollision_Some in H as [_ [[-> ->]|(_ & -> & Hc')]].
  - split; [assumption|apply advance_nonzero].
  - split; [apply Hc'|]; apply advance_nonzero.
  - split; assumption.
  - split; [auto|apply advance_nonzero].
Qed.

(** A claimed identity that is not zero and not online is kept, and the
    counter stays where it is. *)
Lemma resolveIdentity_claimed (claimed : Z) (s : Server.t) :
  claimed <> 0 ->
  Server.onlineClients s !! claimed = None ->
  resolveIdentity claimed s = Some (claimed, Server.nextClientId s).
Proof.
  intros Hc Hfree. unfold resolveIdentity.
  destruct (Z.eqb_spec claimed 0) as [?|_]; [contradiction|].
  simpl. rewrite Hfree. reflexivity.
Qed.

(** A request for a fresh identity, when the counter value is free, takes
    that value and moves the counter on by one step. *)
Lemma resolveIdentity_fresh_request (s : Server.t) :
  Server.onlineClients s !! Server.nextClientId s = None ->
  resolveIdentity 0 s
  = Some (Server.nextClientId s, advance (Server.nextClientId s)).
Proof.
  intros Hfree. unfold resolveIdentity. change (0 =? 0) with true.
  simpl. rewrite Hfree. reflexivity.
Qed.

(** A claimed identity that is online is given up for one read off the
    counter. *)
Lemma resolveIdentity_collision (claimed : Z) (s : Server.t) (c n : Z) :
  is_Some (Server.onlineClients s !! claimed) ->
  resolveIdentity claimed s = Some (c, n) ->
  c <> claimed /\ Server.onlineClients s !! c = None /\ n = advance c.
Proof.
  intros Hon H. pose proof (resolveIdentity_fresh _ _ _ _ H) as Hfree.
  split; [|split; [assumption|]].
  - intros ->. rewrite Hfree in Hon. destruct Hon as [? ?]. discriminate.
  - unfold resolveIdentity in H.
    destruct (claimed =? 0);
      apply avoidCollision_Some in H as [_ [[-> ->]|(_ & -> & _)]];
      try reflexivity.
    rewrite Hfree in Hon. destruct Hon as [? ?]. discriminate.
Qed.

(** ** Rooms, teams and the session of a handshake *)

Lemma findOrCreateRoom_spec (now : Time) (packet : Gjson.json) (clientId : Z)
    (w w1 : World) (room : loc) :
  findOrCreateRoom now packet clientId w = (w1, room) ->
  Server.rooms (server w1) = <[handshakeRoomId packet := room]> (Server.rooms (server w)) /\
  clientHeap w1 = clientHeap w /\
  teamHeap w1 = teamHeap w /\
  Server.onlineClients (server w1) = Server.onlineClients (server w) /\
  Server.nextClientId (server w1) = Server.nextClientId (server w) /\
  Server.gamesCompleted (server w1) = Server.gamesCompleted (server w) /\
  match Server.rooms (server w) !! handshakeRoomId packet with
  | Some r0 => room = r0 /\ w1 = w
  | None =>
      roomHeap w !! room = None /\
      roomHeap w1 =
        <[room := NewRoom now (handshakeRoomId packet) clientId packet]> (roomHeap w)
  end.
Proof.
  unfold findOrCreateRoom, handshakeRoomId.
  destruct (Server.rooms (server w) !! _) as [r0|] eqn:E.
  - intros [= <- <-]. rewrite insert_id by assumption. repeat split.
  - intros [= <- <-]. simpl. repeat split.
    apply not_elem_of_dom, is_fresh.
Qed.

Lemma findOrCreateTeam_spec (room : loc) (teamId : string) (w1 w2 : World)
    (team : loc) :
  findOrCreateTeam room teamId w1 = (w2, team) ->
  server w2 = server w1 /\
  clientHeap w2 = clientHeap w1 /\
  Room.teams (roomHeap w2 !!! room) !! teamId = Some team /\
  Room.clients (roomHeap w2 !!! room) = Room.clients (roomHeap w1 !!! room).
Proof.
  unfold findOrCreateTeam.
  destruct (Room.teams (roomHeap w1 !!! room) !! teamId) as [t0|] eqn:E.
  - intros [= <- <-]. repeat split. assumption.
  - intros [= <- <-]. simpl. rewrite lookup_total_insert_eq. simpl.
    rewrite lookup_insert_eq. repeat split.
Qed.

(** The clients of the room a handshake resolves to, once the room is there. *)
Lemma roomClients_resolved (now : Time) (packet : Gjson.json) (clientId : Z)
    (w w1 : World) (room : loc) :
  findOrCreateRoom now packet clientId w = (w1, room) ->
  Room.clients (roomHeap w1 !!! room) = roomClients (handshakeRoomId packet) w.
Proof.
  intros H. apply findOrCreateRoom_spec in H as (_ & _ & _ & _ & _ & _ & H).
  unfold roomClients.
  destruct (Server.rooms (server w) !! handshakeRoomId packet) as [r0|].
  - destruct H as [-> ->]. reflexivity.
  - destruct H as [_ ->]. rewrite lookup_total_insert_eq. reflexivity.
Qed.

(** What [findOrCreateClient] does once the identity is settled. *)
Lemma attachClient_spec (now : Time) (packet : Gjson.json) (conn : connection)
    (clientId : Z) (w w' : World) (c : loc) :
  attachClient now packet conn clientId w = (w', c) ->
  exists room team,
    Server.rooms (server w') = <[handshakeRoomId packet := room]> (Server.rooms (server w)) /\
    (forall r0, Server.rooms (server w) !! handshakeRoomId packet = Some r0 -> room = r0) /\
    Room.teams (roomHeap w' !!! room) !! handshakeTeamId packet = Some team /\
    match existingSession packet clientId w with
    | Some c0 =>
        c = c0 /\
        clientHeap w' =
          <[c := Client.mk (Client.id (clientHeap w !!! c)) (Some conn)
                   (Client.room (clientHeap w !!! c)) team
                   (handshakeState packet clientId) now]> (clientHeap w)
    | None =>
        clientHeap w !! c = None /\
        clientHeap w' =
          <[c := Client.mk clientId (Some conn) room team
                   (handshakeState packet clientId) now]> (clientHeap w)
    end /\
    Room.clients (roomHeap w' !!! room) =
      <[clientId := c]> (roomClients (handshakeRoomId packet) w) /\
    Server.onlineClients (server w') = <[clientId := c]> (Server.onlineClients (server w)) /\
    Server.nextClientId (server w') = Server.nextClientId (server w) /\
    Server.gamesCompleted (server w') = Server.gamesCompleted (server w).
Proof.
  unfold attachClient.
  destruct (findOrCreateRoom now packet clientId w) as [w1 room] eqn:ER.
  pose proof (roomClients_resolved _ _ _ _ _ _ ER) as Hcl.
  apply findOrCreateRoom_spec in ER
    as (Hrooms & Hch & Hth & Hon & Hnext & Hgames & Hroom).
  fold (handshakeTeamId packet).
  destruct (findOrCreateTeam room (handshakeTeamId packet) w1) as [w2 team] eqn:ET.
  apply findOrCreateTeam_spec in ET as (Hs & Hch2 & Hteam & Hcl2).
  fold (handshakeState packet clientId).
  unfold existingSession. rewrite <- Hcl, <- Hcl2.
  destruct (Room.clients (roomHeap w2 !!! room) !! clientId) as [c0|] eqn:EC.
  - intros [= <- <-]. exists room, team. simpl.
    rewrite Hs, Hch2, Hch, Hon, Hnext, Hgames.
    repeat split; try assumption.
    + intros r0 Hr0. rewrite Hr0 in Hroom. apply Hroom.
    + symmetry. apply insert_id. assumption.
  - intros [= <- <-]. exists room, team. simpl.
    rewrite Hs, Hch2, Hch, Hon, Hnext, Hgames, lookup_total_insert_eq. simpl.
    repeat split; try assumption.
    + intros r0 Hr0. rewrite Hr0 in Hroom. apply Hroom.
    + apply not_elem_of_dom, is_fresh.
Qed.

Lemma firstJoin_eq :
  findOrCreateClient 100 (handshakePacket 0 "r1" "red") 7%nat emptyWorld
  = Some firstJoin.
Proof. vm_compute. reflexivity. Qed.

Lemma secondJoin_eq :
  findOrCreateClient 200 (handshakePacket 1 "r1" "red") 8%nat firstJoin.1
  = Some secondJoin.
Proof. vm_compute. reflexivity. Qed.

(** C3: the reconnect rule.  A handshake is always answered with a session
    (the identity search ends as long as the online clients do not fill the
    whole cycle of identities), and the identity it ends up with is the one
    it carries whenever that is non-zero and not online.  If the resolved
    room already holds a session for that identity, this session object is
    updated in place: connection, state blob, team and activity timestamp
    are replaced, identity and room are kept.  Otherwise a new session is
    built.  Either way the session is registered under the identity in the
    room's client mapping and in the online mapping.  The room and team
    fields are taken to be texts the model gives exactly. *)
Theorem C3_reconnect_updates_in_place
    (now : Time) (packet : Gjson.json) (conn : connection) (w : World) :
  U64.in_range (Server.nextClientId (server w)) ->
  Z.of_nat (size (Server.onlineClients (server w))) < U64.modulus - 1 ->
  exactText (Gjson.Get packet ["roomId"]) ->
  exactText (Gjson.Get packet ["clientState"; "teamId"]) ->
  exists (w' : World) (c : loc) (clientId : Z) (room team : loc),
    findOrCreateClient now packet conn w = Some (w', c) /\
    assignedId packet w = Some clientId /\
    (Gjson.Uint (Gjson.Get packet ["clientId"]) <> 0 ->
     Server.onlineClients (server w) !! Gjson.Uint (Gjson.Get packet ["clientId"]) = None ->
     clientId = Gjson.Uint (Gjson.Get packet ["clientId"])) /\
    Server.rooms (server w') !! handshakeRoomId packet = Some room /\
    Room.teams (roomHeap w' !!! room) !! handshakeTeamId packet = Some team /\
    match existingSession packet clientId w with
    | Some c0 =>
        c = c0 /\
        clientHeap w' =
          <[c := Client.mk (Client.id (clientHeap w !!! c)) (Some conn)
                   (Client.room (clientHeap w !!! c)) team
                   (handshakeState packet clientId) now]> (clientHeap w)
    | None =>
        clientHeap w !! c = None /\
        clientHeap w' =
          <[c := Client.mk clientId (Some conn) room team
                   (handshakeState packet clientId) now]> (clientHeap w)
    end /\
    Room.clients (roomHeap w' !!! room) !! clientId = Some c /\
    Server.onlineClients (server w') !! clientId = Some c.
Proof.
  intros Hn Hsize _ _.
  unfold assignedId, findOrCreateClient.
  set (claimed := Gjson.Uint (Gjson.Get packet ["clientId"])).
  destruct (resolveIdentity_returns claimed (server w) Hn Hsize)
    as [[cid next] ER].
  rewrite ER.
  destruct (attachClient now packet conn cid (set_server (set_nextClientId next) w))
    as [w2 c2] eqn:EA.
  apply attachClient_spec in EA
    as (room & team & Hrooms & _ & Hteam & Hsess & Hcl & Hon & _).
  exists w2, c2, cid, room, team.
  split; [reflexivity|]. split; [reflexivity|]. split.
  - intros Hnz Hfree.
    rewrite (resolveIdentity_claimed _ _ Hnz Hfree) in ER. congruence.
  - split; [|split; [assumption|split; [|split]]].
    + rewrite Hrooms. apply lookup_insert_eq.
    + exact Hsess.
    + rewrite Hcl. apply lookup_insert_eq.
    + rewrite Hon. apply lookup_insert_eq.
Qed.

Lemma C3_reconnect_updates_in_place_witness :
  existingSession (handshakePacket 1 "r1" "blue") 1 firstOffline = Some firstJoin.2 /\
  exists w' team,
    findOrCreateClient 300 (handshakePacket 1 "r1" "blue") 9%nat firstOffline
      = Some (w', firstJoin.2) /\
    clientHeap w' !! firstJoin.2
      = Some (Client.mk 1 (Some 9%nat)
                (Client.room (clientHeap firstOffline !!! firstJoin.2)) team
                (handshakeState (handshakePacket 1 "r1" "blue") 1) 300) /\
    Server.onlineClients (server w') !! 1 = Some firstJoin.2.
Proof.
  assert (existingSession (handshakePacket 1 "r1" "blue") 1 firstOffline
          = Some firstJoin.2) as Hex by (vm_compute; reflexivity).
  split; [exact Hex|].
  destruct (C3_reconnect_updates_in_place 300 (handshakePacket 1 "r1" "blue")
              9%nat firstOffline)
    as (w' & c & cid & room & team & EF & EA & _ & _ & _ & Hsess & _ & Hon).
  - vm_compute. split; congruence.
  - vm_compute. reflexivity.
  - exact I.
  - exact I.
  - assert (cid = 1) as -> by (vm_compute in EA; congruence).
    rewrite Hex in Hsess. destruct Hsess as [-> Hheap].
    exists w', team. split; [exact EF|]. split; [|exact Hon].
    rewrite Hheap, lookup_insert_eq. reflexivity.
Defined.

(** ** Identities over a run of handshakes *)

Lemma resolveIdentity_in_range (claimed : Z) (s : Server.t) (c n : Z) :
  U64.in_range (Server.nextClientId s) ->
  resolveIdentity claimed s = Some (c, n) ->
  U64.in_range n.
Proof.
  intros Hn. unfold resolveIdentity.
  destruct (claimed =? 0); intros H;
    apply avoidCollision_Some in H as [_ [[_ ->]|(_ & -> & _)]];
    auto using advance_in_range.
Qed.

(** What a handshake does to the registry itself. *)
Lemma findOrCreateClient_registry (now : Time) (packet : Gjson.json)
    (conn : connection) (w w' : World) (c : loc) :
  findOrCreateClient now packet conn w = Some (w', c) ->
  exists clientId next,
    resolveIdentity (Gjson.Uint (Gjson.Get packet ["clientId"])) (server w)
      = Some (clientId, next) /\
    assignedId packet w = Some clientId /\
    Server.onlineClients (server w') = <[clientId := c]> (Server.onlineClients (server w)) /\
    Server.nextClientId (server w') = next /\
    Server.gamesCompleted (server w') = Server.gamesCompleted (server w).
Proof.
  unfold findOrCreateClient, assignedId.
  set (claimed := Gjson.Uint (Gjson.Get packet ["clientId"])).
  destruct (resolveIdentity claimed (server w)) as [[cid next]|] eqn:ER;
    [|discriminate].
  intros [= Hattach].
  destruct (attachClient now packet conn cid _) as [w2 c2] eqn:EA.
  injection Hattach as <- <-.
  apply attachClient_spec in EA
    as (room & team & _ & _ & _ & _ & _ & Hon & Hnext & Hgames).
  exists cid, next. repeat split; assumption.
Qed.

(** A handshake is always answered with a session, as long as the online
    clients do not fill the whole cycle of identities. *)
Lemma findOrCreateClient_returns (now : Time) (packet : Gjson.json)
    (conn : connection) (w : World) :
  U64.in_range (Server.nextClientId (server w)) ->
  Z.of_nat (size (Server.onlineClients (server w))) < U64.modulus - 1 ->
  is_Some (findOrCreateClient now packet conn w).
Proof.
  intros Hn Hsize. unfold findOrCreateClient.
  destruct (resolveIdentity_returns (Gjson.Uint (Gjson.Get packet ["clientId"]))
              (server w) Hn Hsize) as [[cid next] ->].
  eauto.
Qed.

(** Over a run of handshakes whose sessions stay online, whatever identities
    they carry: the identities given out are pairwise distinct, none was
    online before, and none is zero if the counter was not zero at the
    start. *)
Lemma handshakes_distinct (joins : list (Time * Gjson.json * connection))
    (w w' : World) (ids : list Z) :
  handshakes joins w = Some (w', ids) ->
  NoDup ids /\
  (forall id, id ∈ ids -> Server.onlineClients (server w) !! id = None) /\
  (Server.nextClientId (server w) <> 0 ->
   (forall id, id ∈ ids -> id <> 0) /\ Server.nextClientId (server w') <> 0).
Proof.
  revert w w' ids.
  induction joins as [|[[now packet] conn] rest IH]; intros w w' ids; simpl.
  - intros [= <- <-]. split; [constructor|]. split.
    + intros id Hid. inversion Hid.
    + intros Hnz. split; [|assumption]. intros id Hid. inversion Hid.
  - destruct (assignedId packet w) as [cid|] eqn:EA; [|discriminate].
    destruct (findOrCreateClient now packet conn w) as [[w1 c]|] eqn:EF;
      [|discriminate].
    destruct (handshakes rest w1) as [[w2 ids']|] eqn:EH; [|discriminate].
    intros [= <- <-].
    apply findOrCreateClient_registry in EF
      as (cid' & next & ER & EA' & Hon & Hnext & _).
    assert (cid' = cid) as Heq by congruence. subst cid'.
    pose proof (resolveIdentity_fresh _ _ _ _ ER) as Hfree.
    apply IH in EH as (Hnd & Hnew & Hnz').
    assert (forall id, id ∈ ids' ->
              id <> cid /\ Server.onlineClients (server w) !! id = None) as Hold.
    { intros id Hid. specialize (Hnew id Hid). rewrite Hon in Hnew.
      apply lookup_insert_None in Hnew as [? ?]. split; congruence. }
    split; [|split].
    + constructor; [|assumption]. intros Hin. apply Hold in Hin as [? _]. congruence.
    + intros id Hid. apply elem_of_cons in Hid as [->|Hid]; [assumption|].
      apply Hold, Hid.
    + intros Hnz. destruct (resolveIdentity_nonzero _ _ _ _ Hnz ER) as [Hc Hn].
      rewrite Hnext in Hnz'. destruct (Hnz' Hn) as [Hall Hlast].
      split; [|assumption].
      intros id Hid. apply elem_of_cons in Hid as [->|Hid]; auto.
Qed.

(** Such a run goes through: every handshake in it is answered. *)
Lemma handshakes_return (joins : list (Time * Gjson.json * connection))
    (w : World) :
  U64.in_range (Server.nextClientId (server w)) ->
  Z.of_nat (size (Server.onlineClients (server w))) + Z.of_nat (length joins)
    < U64.modulus - 1 ->
  is_Some (handshakes joins w).
Proof.
  revert w.
  induction joins as [|[[now packet] conn] rest IH]; intros w Hn Hsize; simpl.
  - eauto.
  - simpl in Hsize.
    destruct (findOrCreateClient_returns now packet conn w Hn ltac:(lia))
      as [[w1 c] EF].
    rewrite EF.
    apply findOrCreateClient_registry in EF
      as (cid & next & ER & -> & Hon & Hnext & _).
    destruct (IH w1) as [[w2 ids] ->]; [| |eauto].
    + rewrite Hnext. eapply resolveIdentity_in_range; eassumption.
    + rewrite Hon, map_size_insert_None
        by (eapply resolveIdentity_fresh; eassumption).
      lia.
Qed.

(** ** Handshakes side by side *)

(** Where the loop's result sits among the counter values: it is the first
    candidate, or it is one of the values read off the counter and the
    counter is left on the value after it. *)
Lemma avoidCollision_position (fuel : nat) (online : gmap Z loc)
    (clientId next c n : Z) :
  avoidCollision fuel online clientId next = Some (c, n) ->
  (c = clientId /\ n = next) \/
  exists j, (S (S j) <= fuel)%nat /\ ticks next (S (S j)) = (ticks next j ++ [c; n])%list.
Proof.
  revert clientId next.
  induction fuel as [|fuel IH]; intros clientId next; simpl; [discriminate|].
  destruct (online !! clientId).
  - intros H. right.
    assert (1 <= fuel)%nat as Hfuel by (destruct fuel; [discriminate|lia]).
    apply IH in H as [[-> ->]|(j & Hj & Ht)].
    + exists 0%nat. split; [lia|reflexivity].
    + exists (S j). split; [lia|].
      change (next :: ticks (advance next) (S (S j))
              = next :: (ticks (advance next) j ++ [c; n])%list).
      f_equal. exact Ht.
  - intros [= <- <-]. left. split; reflexivity.
Qed.

Lemma resolveIdentity_zero_position (s : Server.t) (c n : Z) :
  resolveIdentity 0 s = Some (c, n) ->
  exists j, (j <= S (size (Server.onlineClients s)))%nat /\
    ticks (Server.nextClientId s) (S (S j))
      = (ticks (Server.nextClientId s) j ++ [c; n])%list.
Proof.
  unfold resolveIdentity. change (0 =? 0) with true. cbv iota beta.
  intros H. apply avoidCollision_position in H as [[-> ->]|(j & Hj & Ht)].
  - exists 0%nat. split; [lia|reflexivity].
  - exists (S j). split; [lia|].
    change (Server.nextClientId s :: ticks (advance (Server.nextClientId s)) (S (S j))
            = Server.nextClientId s ::
                (ticks (advance (Server.nextClientId s)) j ++ [c; n])%list).
    f_equal. exact Ht.
Qed.

Lemma ticks_continue (next c n : Z) (j k : nat) :
  ticks next (S (S j)) = (ticks next j ++ [c; n])%list ->
  ticks next (S j + k) = (ticks next j ++ c :: ticks n k)%list.
Proof.
  revert next. induction j as [|j IH]; intros next.
  - intros [= <- <-]. reflexivity.
  - intros Ht.
    assert (ticks (advance next) (S (S j))
            = (ticks (advance next) j ++ [c; n])%list) as Ht'
      by (injection Ht as Ht; exact Ht).
    apply IH in Ht'.
    change (next :: ticks (advance next) (S j + k)
            = next :: (ticks (advance next) j ++ c :: ticks n k)%list).
    f_equal. exact Ht'.
Qed.

(** The identities of such a run are counter values in the order the
    counter produced them. *)
Lemma freshIdentities_sublist (views : list (gmap Z loc)) (next n : Z)
    (ids : list Z) :
  freshIdentities views next = Some (ids, n) ->
  exists K, (K <= ticksBudget views)%nat /\ ids `sublist_of` ticks next K.
Proof.
  revert next n ids.
  induction views as [|online rest IH]; intros next n ids; simpl.
  - intros [= <- <-]. exists 0%nat. split; [lia|constructor].
  - destruct (resolveIdentity 0 _) as [[c n1]|] eqn:ER; [|discriminate].
    destruct (freshIdentities rest n1) as [[ids' n2]|] eqn:EF; [|discriminate].
    intros [= <- <-].
    apply resolveIdentity_zero_position in ER as (j & Hj & Ht).
    cbn [Server.onlineClients Server.nextClientId] in Hj, Ht.
    apply IH in EF as (K & HK & Hsub).
    exists (S j + K)%nat. split.
    + change (ticksBudget (online :: rest))
        with (S (S (size online)) + ticksBudget rest)%nat.
      lia.
    + rewrite (ticks_continue _ _ _ _ K Ht).
      apply sublist_inserts_l. constructor. exact Hsub.
Qed.

(** Handshakes that ask for a fresh identity at the same time, in whatever
    order they get the lock and whoever joins or leaves meanwhile, are given
    pairwise distinct identities, as long as the counter does not go once
    round the whole cycle during the run. *)
Lemma freshIdentities_distinct (views : list (gmap Z loc)) (next n : Z)
    (ids : list Z) :
  U64.in_range next ->
  Z.of_nat (ticksBudget views) <= U64.modulus - 1 ->
  freshIdentities views next = Some (ids, n) ->
  NoDup ids.
Proof.
  intros Hn Hbudget H.
  apply freshIdentities_sublist in H as (K & HK & Hsub).
  eapply sublist_NoDup; [|exact Hsub].
  apply ticks_NoDup; [assumption|lia].
Qed.

(** ** The zero identity *)

(** C1: the allocator is meant never to hand out identity 0, and the guard
    against the wrap-around does its part ([advance_nonzero],
    [resolveIdentity_nonzero]).  But [parseStats] goes on after a failed
    read and stores what it finds in the empty text, so a server started
    without a stats file has its counter at 0, and the first handshake that
    asks for a fresh identity is given identity 0. *)
Theorem C1_identity_zero_after_missing_stats :
  Server.nextClientId (server startedWithoutStats) = 0 /\
  findOrCreateClient 100 (handshakePacket 0 "r1" "red") 7%nat startedWithoutStats
    = Some zeroJoin /\
  assignedId (handshakePacket 0 "r1" "red") startedWithoutStats = Some 0 /\
  Client.id (clientHeap zeroJoin.1 !!! zeroJoin.2) = 0 /\
  Server.onlineClients (server zeroJoin.1) !! 0 = Some zeroJoin.2.
Proof. vm_compute. repeat split; reflexivity. Qed.

(** C2: two handshakes without an identity, on a server started without a
    stats file, are given the identities 0 and 1: distinct, but the first
    one is zero.  Distinctness itself holds for every run
    ([handshakes_distinct]), and so does the rejection of an identity that
    is online ([resolveIdentity_collision]). *)
Theorem C2_first_identity_zero_after_missing_stats :
  exists w,
    handshakes
      [ (100, handshakePacket 0 "r1" "red", 7%nat);
        (200, handshakePacket 0 "r1" "blue", 8%nat) ]
      startedWithoutStats
    = Some (w, [0; 1]).
Proof. eexists. vm_compute. reflexivity. Qed.

(** C4: a stats file that cannot be read is logged and the load goes on,
    but it does not leave the defaults in place: both counters are
    overwritten with 0, the identity counter too, whose compiled-in initial
    value is 1. *)
Theorem C4_missing_stats_zeroes_identity_counter (s : Server.t) :
  parseStats None s
    = (set_counters 0 0 s, [Log "Error reading stats.json file:"]) /\
  Server.nextClientId NewServer = 1 /\
  Server.nextClientId (parseStats None NewServer).1 = 0.
Proof. repeat split. Qed.

(** ** The stats snapshot *)

Lemma statsDocument_gamesComplete (stamp : string) (s : Server.t) :
  statsField (Some (statsDocument stamp s)) "gamesComplete"
  = Some (Sjson.number (Server.gamesCompleted s)).
Proof. reflexivity. Qed.

Lemma statsDocument_nextClientId (stamp : string) (s : Server.t) :
  statsField (Some (statsDocument stamp s)) "nextClientId"
  = Some (Sjson.number (Server.nextClientId s)).
Proof. reflexivity. Qed.

Lemma counter_read_back (n : Z) :
  U64.in_range n -> U64.wrap (Gjson.Int (Some (Sjson.number n))) = n.
Proof.
  intros Hn. unfold Gjson.Int, Sjson.number.
  rewrite Z2N.id by (unfold U64.in_range in Hn; lia).
  rewrite wrap_wrap_signed. apply wrap_small, Hn.
Qed.

Lemma parseStats_saveStats (stamp : string) (s s0 : Server.t) (file : statsFile) :
  U64.in_range (Server.gamesCompleted s) ->
  U64.in_range (Server.nextClientId s) ->
  Server.gamesCompleted (parseStats (saveStats stamp true s file).1 s0).1
    = Server.gamesCompleted s /\
  Server.nextClientId (parseStats (saveStats stamp true s file).1 s0).1
    = Server.nextClientId s.
Proof.
  intros Hg Hn. unfold saveStats, parseStats. cbn [fst snd].
  rewrite statsDocument_gamesComplete, statsDocument_nextClientId.
  unfold set_counters. cbn [Server.gamesCompleted Server.nextClientId].
  split; apply counter_read_back; assumption.
Qed.

(** C5: what [parseStats] reads from the document [saveStats] has just
    written is the games-completed counter and the identity counter that
    were saved, whatever the loading process held before; and any number of
    save-and-load cycles with nothing in between leaves both where they
    were. *)
Theorem C5_snapshot_round_trip (s : Server.t) :
  U64.in_range (Server.gamesCompleted s) ->
  U64.in_range (Server.nextClientId s) ->
  (forall (stamp : string) (file : statsFile) (s0 : Server.t),
     Server.gamesCompleted (parseStats (saveStats stamp true s file).1 s0).1
       = Server.gamesCompleted s /\
     Server.nextClientId (parseStats (saveStats stamp true s file).1 s0).1
       = Server.nextClientId s) /\
  (forall stamps : list string,
     Server.gamesCompleted (saveLoadCycles stamps s) = Server.gamesCompleted s /\
     Server.nextClientId (saveLoadCycles stamps s) = Server.nextClientId s).
Proof.
  intros Hg Hn. split.
  - intros stamp file s0. apply parseStats_saveStats; assumption.
  - intros stamps. revert s Hg Hn.
    induction stamps as [|stamp stamps IH]; intros s Hg Hn; [split; reflexivity|].
    unfold saveLoadCycles in *. cbn [fold_left].
    destruct (parseStats_saveStats stamp s NewServer None Hg Hn) as [Eg En].
    fold (saveThenLoad stamp s) in Eg, En.
    destruct (IH (saveThenLoad stamp s)) as [Eg' En'].
    + rewrite Eg. assumption.
    + rewrite En. assumption.
    + split; congruence.
Qed.

Lemma C5_snapshot_round_trip_witness :
  U64.in_range 5 /\ U64.in_range (U64.modulus - 1) /\
  Server.nextClientId
    (saveLoadCycles ["t1"; "t2"; "t3"] (Server.mk false ∅ ∅ 5 (U64.modulus - 1)))
  = U64.modulus - 1.
Proof.
  assert (U64.in_range 5) as H5 by (vm_compute; split; congruence).
  assert (U64.in_range (U64.modulus - 1)) as HM by (vm_compute; split; congruence).
  split; [exact H5|]. split; [exact HM|].
  apply (C5_snapshot_round_trip (Server.mk false ∅ ∅ 5 (U64.modulus - 1)) H5 HM).
Defined.

(** ** The idle-room sweep *)

(** A room counts as idle exactly when its last activity lies more than
    five minutes back; the saturation of [time.Duration] changes nothing. *)
Lemma inactive_iff (now : Time) (heap : gmap loc Room.t) (room : loc) :
  inactive now heap room = true <->
  5 * 60 * 1000000000 < now - Room.lastActivity (heap !!! room).
Proof.
  unfold inactive, INACTIVITY_TIMEOUT, Minute, Second, time_Since, time_Sub,
    GetLastActivity, maxDuration, minDuration.
  cbv zeta. change (2 ^ 63) with 9223372036854775808.
  generalize (now - Room.lastActivity (heap !!! room)). intros d.
  rewrite Z.ltb_lt.
  repeat match goal with
         | |- context [?a <? ?b] => destruct (Z.ltb_spec a b)
         end; lia.
Qed.

(** The loop over the room mapping, for any mapping [rooms] it started
    with: an entry of [walked] goes if its room is idle, everything else
    stays, and nothing but log lines comes out. *)
Lemma sweep_fold (now : Time) (heap : gmap loc Room.t)
    (rooms walked : gmap string loc) :
  let swept := map_fold (sweepRoom now heap) (rooms, []) walked in
  (forall id,
     swept.1 !! id =
       match walked !! id with
       | Some room => if inactive now heap room then None else rooms !! id
       | None => rooms !! id
       end) /\
  Forall isLog swept.2.
Proof.
  apply (map_fold_weak_ind
           (fun (acc : gmap string loc * list event) (m : gmap string loc) =>
              (forall id,
                 acc.1 !! id =
                   match m !! id with
                   | Some room => if inactive now heap room then None else rooms !! id
                   | None => rooms !! id
                   end) /\
              Forall isLog acc.2)).
  - split; [|constructor]. intros id. rewrite lookup_empty. reflexivity.
  - intros i room m acc Hi [Hl He]. unfold sweepRoom.
    destruct (inactive now heap room) eqn:E; simpl.
    + split.
      * intros id. destruct (decide (i = id)) as [->|Hne].
        -- rewrite lookup_delete_eq, lookup_insert_eq, E. reflexivity.
        -- rewrite lookup_delete_ne, lookup_insert_ne by assumption. apply Hl.
      * apply Forall_app. split; [assumption|].
        constructor; [eexists; reflexivity|constructor].
    + split; [|assumption].
      intros id. destruct (decide (i = id)) as [->|Hne].
      * rewrite lookup_insert_eq, E, Hl, Hi. reflexivity.
      * rewrite lookup_insert_ne by assumption. apply Hl.
Qed.

(** C8: one pass of the sweeper, which runs every five seconds, removes
    from the room mapping exactly the rooms whose last activity lies more
    than five minutes back and keeps every other room; it touches nothing
    else (sessions, rooms and teams themselves, the online mapping, the
    counters) and writes to no connection: it only logs. *)
Theorem C8_sweep_removes_exactly_idle_rooms (now : Time) (w : World) :
  (forall id,
     Server.rooms (server (cleanupInactiveRooms now w).1) !! id =
       match Server.rooms (server w) !! id with
       | Some room => if inactive now (roomHeap w) room then None else Some room
       | None => None
       end) /\
  (forall room,
     inactive now (roomHeap w) room = true <->
     5 * 60 * 1000000000 < now - Room.lastActivity (roomHeap w !!! room)) /\
  CLEANUP_INTERVAL = 5 * 1000000000 /\
  clientHeap (cleanupInactiveRooms now w).1 = clientHeap w /\
  roomHeap (cleanupInactiveRooms now w).1 = roomHeap w /\
  teamHeap (cleanupInactiveRooms now w).1 = teamHeap w /\
  Server.onlineClients (server (cleanupInactiveRooms now w).1)
    = Server.onlineClients (server w) /\
  Server.gamesCompleted (server (cleanupInactiveRooms now w).1)
    = Server.gamesCompleted (server w) /\
  Server.nextClientId (server (cleanupInactiveRooms now w).1)
    = Server.nextClientId (server w) /\
  Forall isLog (cleanupInactiveRooms now w).2.
Proof.
  destruct (sweep_fold now (roomHeap w) (Server.rooms (server w))
              (Server.rooms (server w))) as [Hl He].
  split; [|split; [|repeat split]].
  - intros id. unfold cleanupInactiveRooms. cbn [fst snd set_server server
      set_rooms Server.rooms]. rewrite Hl.
    destruct (Server.rooms (server w) !! id) as [room|] eqn:E; rewrite ?E;
      reflexivity.
  - intros room. apply inactive_iff.
  - exact He.
Qed.

(** ** Handshakes that name no room *)

Lemma handshakeRoomId_absent (packet : Gjson.json) :
  Gjson.Get packet ["roomId"] = None \/
  Gjson.Get packet ["roomId"] = Some (Gjson.JStr EmptyString) ->
  handshakeRoomId packet = EmptyString.
Proof. unfold handshakeRoomId. intros [-> | ->]; reflexivity. Qed.

Section Handshake.

Variable broadcastAllClientState : Time -> loc -> World -> World.
Variable sendRoomState : Time -> loc -> World -> World.
Variable handlePacket : Time -> loc -> Gjson.json -> World -> World.

(** C10: a handshake whose [roomId] is absent or empty is not turned away.
    It is answered with a session like any other, the room it resolves to
    is the one kept under the empty key (the room already there, if there is
    one), and the session joins the clients that room already has. *)
Theorem C10_absent_room_id_joins_empty_key_room
    (now : Time) (packet : Gjson.json) (conn : connection) (w : World) :
  Gjson.Get packet ["roomId"] = None \/
  Gjson.Get packet ["roomId"] = Some (Gjson.JStr EmptyString) ->
  U64.in_range (Server.nextClientId (server w)) ->
  Z.of_nat (size (Server.onlineClients (server w))) < U64.modulus - 1 ->
  exists (w' : World) (c : loc) (clientId : Z) (room : loc),
    findOrCreateClient now packet conn w = Some (w', c) /\
    assignedId packet w = Some clientId /\
    Server.rooms (server w') !! EmptyString = Some room /\
    (forall r0, Server.rooms (server w) !! EmptyString = Some r0 -> room = r0) /\
    Room.clients (roomHeap w' !!! room)
      = <[clientId := c]> (roomClients EmptyString w) /\
    (Gjson.Get packet ["type"] = Some (Gjson.JStr "HANDSHAKE") ->
     exists w'' evs,
       handlePayload broadcastAllClientState sendRoomState handlePacket
         conn now (Some packet) (w, None)
       = Some ((w'', Some c), evs)).
Proof.
  intros Hroom Hn Hsize.
  apply handshakeRoomId_absent in Hroom.
  destruct (findOrCreateClient_returns now packet conn w Hn Hsize) as [[w' c] EF].
  pose proof EF as EF'.
  apply findOrCreateClient_registry in EF' as (cid & next & ER & EA & _).
  exists w', c, cid.
  unfold findOrCreateClient in EF. rewrite ER in EF. injection EF as EF.
  pose proof EF as EF2.
  apply attachClient_spec in EF2
    as (room & team & Hrooms & Hsame & _ & _ & Hcl & _).
  rewrite Hroom in Hrooms, Hsame, Hcl.
  exists room. split; [|split; [assumption|split; [|split; [|split]]]].
  - unfold findOrCreateClient. rewrite ER, EF. reflexivity.
  - rewrite Hrooms. apply lookup_insert_eq.
  - exact Hsame.
  - exact Hcl.
  - intros Htype. unfold handlePayload. rewrite Htype. cbn [Gjson.Exists negb Gjson.String_].
    change (String.eqb "HANDSHAKE" "STATS") with false.
    change (String.eqb "HANDSHAKE" "HANDSHAKE") with true. cbn [negb].
    unfold findOrCreateClient. rewrite ER, EF. eauto.
Qed.

End Handshake.

Lemma C10_absent_room_id_joins_empty_key_room_witness :
  Gjson.Get roomlessHandshake ["roomId"] = None /\
  exists (w' : World) (c : loc) (room : loc),
    findOrCreateClient 100 roomlessHandshake 7%nat emptyWorld = Some (w', c) /\
    Server.rooms (server w') !! EmptyString = Some room /\
    Room.clients (roomHeap w' !!! room) !! 1 = Some c.
Proof.
  split; [reflexivity|].
  destruct (C10_absent_room_id_joins_empty_key_room
              (fun _ _ w => w) (fun _ _ w => w) (fun _ _ _ w => w)
              100 roomlessHandshake 7%nat emptyWorld)
    as (w' & c & cid & room & EF & EA & Hr & _ & Hcl & _).
  - left. reflexivity.
  - vm_compute. split; congruence.
  - vm_compute. reflexivity.
  - exists w', c, room. split; [exact EF|]. split; [exact Hr|].
    assert (cid = 1) as -> by (vm_compute in EA; congruence).
    rewrite Hcl. apply lookup_insert_eq.
Defined.

(** ** The connection loop *)

Lemma statsReply_fields (s : Server.t) :
  Gjson.Get (statsReply s) ["type"] = Some (Gjson.JStr "STATS") /\
  Gjson.Get (statsReply s) ["uniquePlayers"]
    = Some (Sjson.number (Server.nextClientId s)) /\
  Gjson.Get (statsReply s) ["gamesCompleted"]
    = Some (Sjson.number (Server.gamesCompleted s)) /\
  Gjson.Get (statsReply s) ["online"]
    = Some (Gjson.JNum (N.of_nat (size (Server.onlineClients s)))).
Proof. repeat split. Qed.

(** The text of a value that is not a string never reads [STATS] or
    [HANDSHAKE]: it is empty, a literal, a run of digits, or begins with a
    bracket or a brace. *)
Lemma digitsOnly_pretty_N_go (x : N) (s : string) :
  digitsOnly s = true -> digitsOnly (pretty_N_go x s) = true.
Proof.
  revert s. induction x as [x IH] using (well_founded_induction N.lt_wf_0).
  intros s Hs. destruct (N.eq_dec x 0%N) as [->|Hx].
  - rewrite pretty_N_go_0. exact Hs.
  - rewrite pretty_N_go_step by lia. apply IH.
    + apply N.div_lt; lia.
    + cbn [digitsOnly].
      assert (is_Some (Gjson.digit (pretty_N_char (x `mod` 10)%N))) as [d ->]
        by (unfold pretty_N_char; repeat case_match; eexists; reflexivity).
      exact Hs.
Qed.

Lemma digitsOnly_pretty (n : N) : digitsOnly (pretty n) = true.
Proof.
  unfold pretty, pretty_N. destruct (decide (n = 0%N)); [reflexivity|].
  apply digitsOnly_pretty_N_go. reflexivity.
Qed.

Lemma nonstring_text (j : Gjson.json) :
  (forall s, j <> Gjson.JStr s) ->
  String.eqb (Gjson.String_ (Some j)) "STATS" = false /\
  String.eqb (Gjson.String_ (Some j)) "HANDSHAKE" = false.
Proof.
  intros Hj. destruct j as [|[]|n|s| |]; try (split; reflexivity).
  - cbn [Gjson.String_ Gjson.render].
    pose proof (digitsOnly_pretty n) as Hd.
    split; apply String.eqb_neq; intros Heq; rewrite Heq in Hd; discriminate.
  - exfalso. exact (Hj s eq_refl).
Qed.

Section Loop.

Variable broadcastAllClientState : Time -> loc -> World -> World.
Variable sendRoomState : Time -> loc -> World -> World.
Variable handlePacket : Time -> loc -> Gjson.json -> World -> World.

Let step := handlePayload broadcastAllClientState sendRoomState handlePacket.
Let loop := readLoop broadcastAllClientState sendRoomState handlePacket.

(** C7 (amended): a [STATS] frame is answered in whatever state the
    connection is, before a handshake as well as after.  One reply is
    written to the connection; read back, its [uniquePlayers] field is the
    value of the identity counter, its [gamesCompleted] field the
    games-completed counter, and its [online] field the number of online
    clients.  Neither the registry nor the loop's session variable changes,
    so no session comes into being. *)
Theorem C7_stats_answered_without_state_change
    (conn : connection) (now : Time) (packet : Gjson.json) (st : loopState) :
  Gjson.Get packet ["type"] = Some (Gjson.JStr "STATS") ->
  U64.in_range (Server.nextClientId (server st.1)) ->
  U64.in_range (Server.gamesCompleted (server st.1)) ->
  exists reply,
    step conn now (Some packet) st = Some (st, [ConnWrite conn reply]) /\
    Gjson.Get reply ["type"] = Some (Gjson.JStr "STATS") /\
    Gjson.Uint (Gjson.Get reply ["uniquePlayers"])
      = Server.nextClientId (server st.1) /\
    Gjson.Uint (Gjson.Get reply ["gamesCompleted"])
      = Server.gamesCompleted (server st.1) /\
    Gjson.Get reply ["online"]
      = Some (Gjson.JNum (N.of_nat (size (Server.onlineClients (server st.1))))).
Proof.
  intros Htype Hnext Hgames. exists (statsReply (server st.1)).
  assert (forall n, U64.in_range n -> Gjson.Uint (Some (Sjson.number n)) = n)
    as Hread.
  { intros n Hn. unfold Gjson.Uint, Sjson.number.
    rewrite Z2N.id by (unfold U64.in_range in Hn; lia).
    apply wrap_small, Hn. }
  destruct (statsReply_fields (server st.1)) as (Ht & Hu & Hg & Ho).
  split; [|split; [exact Ht|split; [|split; [|exact Ho]]]].
  - unfold step, handlePayload. destruct st as [w client].
    rewrite Htype. reflexivity.
  - rewrite Hu. apply Hread, Hnext.
  - rewrite Hg. apply Hread, Hgames.
Qed.

(** The loop over a stream in two parts. *)
Lemma readLoop_app (conn : connection) (pre post : list (Time * payload))
    (st : loopState) :
  loop conn (pre ++ post) st =
    match loop conn pre st with
    | None => None
    | Some (st1, e1) =>
        match loop conn post st1 with
        | None => None
        | Some (st2, e2) => Some (st2, (e1 ++ e2)%list)
        end
    end.
Proof.
  unfold loop. revert st.
  induction pre as [|[now p] pre IH]; intros st; simpl.
  - destruct (readLoop _ _ _ conn post st) as [[st2 e2]|]; reflexivity.
  - destruct (handlePayload _ _ _ conn now p st) as [[st1 e1]|]; [|reflexivity].
    rewrite IH.
    destruct (readLoop _ _ _ conn pre st1) as [[st2 e2]|]; [|reflexivity].
    destruct (readLoop _ _ _ conn post st2) as [[st3 e3]|]; [|reflexivity].
    rewrite app_assoc. reflexivity.
Qed.

(** Nothing inside the loop closes the connection. *)
Lemma readLoop_never_closes (conn : connection) (frames : list (Time * payload))
    (st st' : loopState) (evs : list event) :
  loop conn frames st = Some (st', evs) ->
  forall c, ConnClose c ∉ evs.
Proof.
  unfold loop. revert st st' evs.
  induction frames as [|[now p] frames IH]; intros st st' evs; simpl.
  - intros [= <- <-] c Hc. inversion Hc.
  - destruct (handlePayload _ _ _ conn now p st) as [[st1 e1]|] eqn:E1;
      [|discriminate].
    destruct (readLoop _ _ _ conn frames st1) as [[st2 e2]|] eqn:E2;
      [|discriminate].
    intros [= <- <-] c Hc. apply elem_of_app in Hc as [Hc|Hc].
    + unfold handlePayload in E1. destruct st as [w client].
      repeat match type of E1 with
             | match ?x with _ => _ end = _ => destruct x eqn:?
             | (if ?x then _ else _) = _ => destruct x eqn:?
             | (let '(_, _) := ?x in _) = _ => destruct x eqn:?
             end;
        try discriminate; injection E1 as <- <-;
        repeat (apply elem_of_cons in Hc as [Hc|Hc]; [discriminate|]);
        inversion Hc.
    + eapply IH; eassumption.
Qed.

(** A frame whose [type] field is there, whatever kind of value it holds,
    goes the way of its text form: unless that reads [STATS], it is dropped
    with a log line before the handshake when it does not read [HANDSHAKE],
    and passed to the session's handler after the handshake. *)
Lemma typed_frame_before_handshake
    (conn : connection) (now : Time) (packet : Gjson.json) (w : World) :
  Gjson.Exists (Gjson.Get packet ["type"]) = true ->
  String.eqb (Gjson.String_ (Gjson.Get packet ["type"])) "STATS" = false ->
  String.eqb (Gjson.String_ (Gjson.Get packet ["type"])) "HANDSHAKE" = false ->
  step conn now (Some packet) (w, None)
  = Some ((w, None), [Log "Client must handshake first"]).
Proof.
  intros He Hs Hh. unfold step, handlePayload. rewrite He, Hs, Hh. reflexivity.
Qed.

Lemma typed_frame_after_handshake
    (conn : connection) (now : Time) (packet : Gjson.json) (w : World) (c : loc) :
  Gjson.Exists (Gjson.Get packet ["type"]) = true ->
  String.eqb (Gjson.String_ (Gjson.Get packet ["type"])) "STATS" = false ->
  step conn now (Some packet) (w, Some c)
  = Some ((handlePacket now c packet w, Some c), [CallHandlePacket c packet]).
Proof.
  intros He Hs. unfold step, handlePayload. rewrite He, Hs. reflexivity.
Qed.

(** A frame the loop drops with a log line, in the middle of a stream: the
    loop goes on with the frames that follow as if the frame had not been
    there, save for the log line. *)
Lemma dropped_frame_in_stream
    (conn : connection) (now : Time) (p : payload) (msg : string)
    (pre post : list (Time * payload)) (st st1 : loopState) (e1 : list event) :
  loop conn pre st = Some (st1, e1) ->
  step conn now p st1 = Some (st1, [Log msg]) ->
  loop conn (pre ++ (now, p) :: post) st =
    match loop conn post st1 with
    | None => None
    | Some (st2, e2) => Some (st2, (e1 ++ Log msg :: e2)%list)
    end.
Proof.
  intros Hpre Hstep. rewrite readLoop_app, Hpre.
  unfold loop. cbn [readLoop]. fold step. rewrite Hstep.
  destruct (readLoop _ _ _ conn post st1) as [[st2 e2]|]; reflexivity.
Qed.

(** C6 (amended): a frame without a string-valued [type] field never makes
    the core close the connection, and the loop goes on after it.  Before a
    handshake every such frame is logged and dropped.  A frame that is not
    valid JSON, or that has no [type] field at all, is logged and dropped
    after a handshake too: the iteration leaves the registry and the
    session variable as they were, and the loop treats the frames that
    follow as if the frame had not been there, save for the log line.  But
    a frame whose [type] field is present and not a string is, after a
    handshake, passed to the session's packet handler instead of being
    dropped. *)
Theorem C6_malformed_frame_is_logged_and_dropped
    (conn : connection) (now : Time) (p : payload) :
  lacksStringType p ->
  (exists msg,
     (forall w, step conn now p (w, None) = Some ((w, None), [Log msg])) /\
     (forall pre post st w e1,
        loop conn pre st = Some ((w, None), e1) ->
        loop conn (pre ++ (now, p) :: post) st =
          match loop conn post (w, None) with
          | None => None
          | Some (st2, e2) => Some (st2, (e1 ++ Log msg :: e2)%list)
          end)) /\
  (malformed p ->
   exists msg,
     (forall st, step conn now p st = Some (st, [Log msg])) /\
     (forall pre post st,
        loop conn (pre ++ (now, p) :: post) st =
          match loop conn pre st with
          | None => None
          | Some (st1, e1) =>
              match loop conn post st1 with
              | None => None
              | Some (st2, e2) => Some (st2, (e1 ++ Log msg :: e2)%list)
              end
          end)) /\
  (forall packet,
     p = Some packet ->
     Gjson.Exists (Gjson.Get packet ["type"]) = true ->
     (forall w c,
        step conn now p (w, Some c)
        = Some ((handlePacket now c packet w, Some c), [CallHandlePacket c packet])) /\
     (forall post w c,
        loop conn ((now, p) :: post) (w, Some c) =
          match loop conn post (handlePacket now c packet w, Some c) with
          | None => None
          | Some (st2, e2) => Some (st2, CallHandlePacket c packet :: e2)
          end)) /\
  (forall frames st st' evs,
     loop conn frames st = Some (st', evs) -> forall c, ConnClose c ∉ evs).
Proof.
  intros Hlacks.
  assert (malformed p ->
          exists msg, forall st, step conn now p st = Some (st, [Log msg]))
    as Hmal.
  { intros Hbad. destruct p as [doc|]; unfold malformed in Hbad.
    - exists "Packet missing type". intros [w client].
      unfold step, handlePayload. rewrite Hbad. reflexivity.
    - exists "Invalid JSON packet". intros [w client]. reflexivity. }
  assert (forall packet,
            p = Some packet ->
            Gjson.Exists (Gjson.Get packet ["type"]) = true ->
            String.eqb (Gjson.String_ (Gjson.Get packet ["type"])) "STATS" = false /\
            String.eqb (Gjson.String_ (Gjson.Get packet ["type"])) "HANDSHAKE" = false)
    as Htext.
  { intros packet -> He. cbn [lacksStringType] in Hlacks.
    destruct (Gjson.Get packet ["type"]) as [j|]; [|discriminate].
    apply nonstring_text. intros s ->. exact (Hlacks s eq_refl). }
  split; [|split; [|split; [|apply readLoop_never_closes]]].
  - assert (exists msg, forall w,
               step conn now p (w, None) = Some ((w, None), [Log msg]))
      as [msg Hstep].
    { destruct p as [packet|].
      - destruct (Gjson.Exists (Gjson.Get packet ["type"])) eqn:He.
        + exists "Client must handshake first". intros w.
          destruct (Htext packet eq_refl He) as [Hs Hh].
          apply typed_frame_before_handshake; assumption.
        + destruct Hmal as [msg Hstep].
          * cbn [malformed]. destruct (Gjson.Get packet ["type"]);
              [discriminate|reflexivity].
          * exists msg. intros w. apply Hstep.
      - destruct (Hmal I) as [msg Hstep]. exists msg. intros w. apply Hstep. }
    exists msg. split; [exact Hstep|].
    intros pre post st w e1 Hpre.
    apply dropped_frame_in_stream; [exact Hpre|apply Hstep].
  - intros Hbad. destruct (Hmal Hbad) as [msg Hstep].
    exists msg. split; [exact Hstep|].
    intros pre post st.
    destruct (loop conn pre st) as [[st1 e1]|] eqn:Hpre.
    + apply dropped_frame_in_stream; [exact Hpre|apply Hstep].
    + rewrite readLoop_app, Hpre. reflexivity.
  - intros packet -> He. destruct (Htext packet eq_refl He) as [Hs _].
    assert (forall w c,
               step conn now (Some packet) (w, Some c)
               = Some ((handlePacket now c packet w, Some c),
                       [CallHandlePacket c packet])) as Hstep
      by (intros w c; apply typed_frame_after_handshake; assumption).
    split; [exact Hstep|].
    intros post w c. unfold loop. cbn [readLoop]. fold step. rewrite Hstep.
    destruct (readLoop _ _ _ conn post _) as [[st2 e2]|]; reflexivity.
Qed.

End Loop.

Lemma C7_stats_answered_without_state_change_witness :
  exists reply,
    handlePayload idle2 idle2 idle3 7%nat 100 (Some statsRequest) (emptyWorld, None)
      = Some ((emptyWorld, None), [ConnWrite 7%nat reply]) /\
    Gjson.Uint (Gjson.Get reply ["uniquePlayers"]) = 1 /\
    Gjson.Uint (Gjson.Get reply ["gamesCompleted"]) = 0.
Proof.
  destruct (C7_stats_answered_without_state_change idle2 idle2 idle3
              7%nat 100 statsRequest (emptyWorld, None))
    as (reply & Hstep & _ & Hu & Hg & _).
  - reflexivity.
  - vm_compute. split; congruence.
  - vm_compute. split; congruence.
  - exists reply. split; [exact Hstep|]. split; [exact Hu|exact Hg].
Defined.

Lemma carriedRun_eq : handshakes carriedJoins emptyWorld = Some carriedRun.
Proof. vm_compute. reflexivity. Qed.

(** C7, as stated, fails: the [uniquePlayers] field is no count of clients.
    Two handshakes that carry the identities 5 and 6 are given two distinct
    identities, and the reply still reads 1, the value the counter has on a
    server that has numbered nobody. *)
Lemma C7_counterexample : ~ uniquePlayers_counts_assigned.
Proof.
  intros H.
  specialize (H carriedJoins carriedRun.1 carriedRun.2).
  rewrite carriedRun_eq in H.
  assert (Some carriedRun = Some (carriedRun.1, carriedRun.2)) as Heq
    by (destruct carriedRun; reflexivity).
  specialize (H Heq).
  assert (Gjson.Uint (Gjson.Get (statsReply (server carriedRun.1)) ["uniquePlayers"])
          = 1) as Hfield by (vm_compute; reflexivity).
  assert (Z.of_nat (size (list_to_set carriedRun.2 : gset Z)) = 2) as Hcount
    by (vm_compute; reflexivity).
  rewrite Hfield, Hcount in H. clear Heq. discriminate H.
Qed.

Lemma C6_malformed_frame_is_logged_and_dropped_witness :
  lacksStringType (Some numberTyped) /\
  (exists msg,
     handlePayload idle2 idle2 idle3 7%nat 100 (Some numberTyped) (emptyWorld, None)
       = Some ((emptyWorld, None), [Log msg])) /\
  handlePayload idle2 idle2 idle3 7%nat 300 (Some numberTyped)
    (firstJoin.1, Some firstJoin.2)
    = Some ((firstJoin.1, Some firstJoin.2),
            [CallHandlePacket firstJoin.2 numberTyped]).
Proof.
  assert (lacksStringType (Some numberTyped)) as Hlacks
    by (intros s; discriminate).
  split; [exact Hlacks|].
  split.
  - destruct (C6_malformed_frame_is_logged_and_dropped idle2 idle2 idle3
                7%nat 100 (Some numberTyped) Hlacks)
      as ((msg & Hbefore & _) & _).
    exists msg. apply Hbefore.
  - destruct (C6_malformed_frame_is_logged_and_dropped idle2 idle2 idle3
                7%nat 300 (Some numberTyped) Hlacks)
      as (_ & _ & Hafter & _).
    destruct (Hafter numberTyped eq_refl eq_refl) as [Hstep _].
    apply Hstep.
Defined.

(** C6, as stated, fails: the frame [{"type":5}] has no string-valued type,
    yet once client 1 has shaken hands the loop hands it to the session's
    handler instead of logging and dropping it. *)
Lemma C6_counterexample : ~ frames_without_string_type_dropped.
Proof.
  intros H.
  destruct (H idle2 idle2 idle3 7%nat 300 (Some numberTyped)
              (firstJoin.1, Some firstJoin.2)) as [msg Hmsg].
  - intros s. discriminate.
  - vm_compute in Hmsg. discriminate.
Qed.

(** ** The operator console *)

(** C9: releasing a session's mutex twice in a row is a fault, and the
    [disable] command does just that.  Whenever the target client is found
    online, the command unlocks the client's mutex without having locked
    it, twice: on a mutex nobody holds the first unlock already stops the
    process, and on one held by another goroutine the second does.  The
    [message] command next to it locks before it unlocks
    ([cmdMessage_balanced]). *)
Theorem C9_disable_unlocks_mutex_it_does_not_hold
    (w : World) (splitInput : list string) (arg : string) (target : Z)
    (c : loc) (tb : Mutex.table) :
  splitInput !! 1%nat = Some arg ->
  ParseUint arg = Some target ->
  target <> 0 ->
  Server.onlineClients (server w) !! target = Some c ->
  Mutex.serverMu tb = Mutex.Unlocked ->
  exists trace,
    cmdDisable w splitInput tb
      = Crash (UnlockOfUnlockedMutex (Mutex.OfClient c)) trace.
Proof.
  intros Harg Hparse Hnz Hon Hmu.
  unfold cmdDisable, mbind, cmd_bind, bind, index, getClientID.
  rewrite Harg, Hparse. unfold mret, cmd_ret, ret.
  destruct (Z.eqb_spec target 0) as [?|_]; [contradiction|].
  rewrite Hon. unfold Lock, Unlock, emit.
  cbn [Mutex.get Mutex.put Mutex.serverMu]. rewrite Hmu.
  cbn [Mutex.get Mutex.put Mutex.serverMu Mutex.clientMu app].
  destruct (decide (c ∈ Mutex.clientMu tb)) as [Hheld|Hfree].
  - cbn [Mutex.get Mutex.put Mutex.serverMu Mutex.clientMu app].
    destruct (decide (c ∈ Mutex.clientMu tb ∖ {[c]})) as [Hin|_].
    + apply elem_of_difference in Hin as [_ Hin].
      exfalso. apply Hin, elem_of_singleton. reflexivity.
    + eexists. reflexivity.
  - eexists. reflexivity.
Qed.

Lemma C9_disable_unlocks_mutex_it_does_not_hold_witness :
  Split "disable 1 bye" !! 1%nat = Some "1" /\
  ParseUint "1" = Some 1 /\
  Server.onlineClients (server firstJoin.1) !! 1 = Some firstJoin.2 /\
  exists trace,
    cmdDisable firstJoin.1 (Split "disable 1 bye") Mutex.free
      = Crash (UnlockOfUnlockedMutex (Mutex.OfClient firstJoin.2)) trace.
Proof.
  assert (Server.onlineClients (server firstJoin.1) !! 1 = Some firstJoin.2) as Hon
    by (vm_compute; reflexivity).
  split; [reflexivity|]. split; [reflexivity|]. split; [exact Hon|].
  apply (C9_disable_unlocks_mutex_it_does_not_hold firstJoin.1
           (Split "disable 1 bye") "1" 1 firstJoin.2 Mutex.free).
  - reflexivity.
  - reflexivity.
  - discriminate.
  - exact Hon.
  - reflexivity.
Defined.

(** The [message] command takes the session's mutex before it releases it
    and leaves every mutex as it found it. *)
Lemma cmdMessage_balanced
    (w : World) (splitInput : list string) (arg : string) (target : Z)
    (c : loc) (tb : Mutex.table) :
  splitInput !! 1%nat = Some arg ->
  ParseUint arg = Some target ->
  target <> 0 ->
  Server.onlineClients (server w) !! target = Some c ->
  Mutex.serverMu tb = Mutex.Unlocked ->
  c ∉ Mutex.clientMu tb ->
  exists trace, cmdMessage w splitInput tb = Ret tt tb trace.
Proof.
  intros Harg Hparse Hnz Hon Hmu Hfree.
  unfold cmdMessage, mbind, cmd_bind, bind, index, getClientID.
  rewrite Harg, Hparse. unfold mret, cmd_ret, ret.
  destruct (Z.eqb_spec target 0) as [?|_]; [contradiction|].
  rewrite Hon. unfold Lock, Unlock, emit.
  cbn [Mutex.get Mutex.put Mutex.serverMu]. rewrite Hmu.
  cbn [Mutex.get Mutex.put Mutex.serverMu Mutex.clientMu app].
  destruct (decide (c ∈ Mutex.clientMu tb)) as [?|_]; [contradiction|].
  cbn [Mutex.get Mutex.put Mutex.serverMu Mutex.clientMu app].
  destruct (decide (c ∈ {[c]} ∪ Mutex.clientMu tb)) as [_|Hout];
    [|exfalso; apply Hout, elem_of_union; left; apply elem_of_singleton;
      reflexivity].
  cbn [Mutex.get Mutex.put Mutex.serverMu Mutex.clientMu app].
  destruct tb as [smu cmu]. cbn [Mutex.serverMu Mutex.clientMu] in *. subst smu.
  assert (({[c]} ∪ cmu) ∖ {[c]} = cmu) as ->.
  { apply set_eq. intros x.
    rewrite elem_of_difference, elem_of_union, elem_of_singleton.
    split; [intros [[?|?] ?]; [contradiction|assumption]|].
    intros Hx. split; [right; assumption|]. intros ->. contradiction. }
  eexists. reflexivity.
Qed.
